(** * CrateCheck: the check runner of [cratecheck.py]

    A shallow embedding of the script's controller class [CrateChecker] and
    of [main], with the properties of its counters, failure routing,
    abort edge and verdict.

    Text is modelled as byte strings (a Python [str] in its UTF-8
    encoding); Python's unbounded [int] as [Z]; the mutable controller
    object as a record threaded through a state monad; the operating
    system (child processes, the file system, the terminal) as a [World]
    that the program reads and extends. *)

From Stdlib Require Import String Ascii List ZArith QArith Bool Lia DecimalString.
Import ListNotations.

Local Open Scope string_scope.
Local Open Scope Z_scope.

Set Implicit Arguments.

(** ** Text helpers (Python built-ins used by the script) *)

Definition ESC : string := String "027"%char EmptyString.
Definition NL : string := String "010"%char EmptyString.

(** [s * n] on strings. *)
Fixpoint str_repeat (s : string) (n : nat) : string :=
  match n with
  | O => ""
  | S n' => s ++ str_repeat s n'
  end.

(** [sep.join(xs)]. *)
Definition join (sep : string) (xs : list string) : string :=
  String.concat sep xs.

(** [str(n)] for an [int]. *)
Definition str_of_int (n : Z) : string :=
  NilZero.string_of_int (Z.to_int n).

(** [len(xs)]. *)
Definition len {A} (xs : list A) : Z := Z.of_nat (length xs).

(** Truth value of a [str]: empty is false. *)
Definition nonempty (s : string) : bool :=
  match s with
  | EmptyString => false
  | String _ _ => true
  end.

(** A byte that continues a UTF-8 sequence ([10xxxxxx]). *)
Definition is_continuation (c : ascii) : bool :=
  let n := nat_of_ascii c in
  ((128 <=? n) && (n <=? 191))%nat.

(** [len(s)] for a [str]: its code points, one for each byte that starts a
    UTF-8 sequence. *)
Fixpoint code_points (s : string) : nat :=
  match s with
  | EmptyString => O
  | String c s' => if is_continuation c then code_points s' else S (code_points s')
  end.

(** [str.center(width)] with the space fill character, as CPython pads:
    the left margin is [marg/2 + (marg & width & 1)]. *)
Definition center (s : string) (width : Z) : string :=
  let marg := width - Z.of_nat (code_points s) in
  if marg <=? 0 then s
  else
    let left := marg / 2 + Z.land (Z.land marg width) 1 in
    str_repeat " " (Z.to_nat left) ++ s ++ str_repeat " " (Z.to_nat (marg - left)).

(** The white space of [str.strip()], that is the characters for which
    [str.isspace()] holds, by the length of their UTF-8 encoding.
    One byte: U+0009 to U+000D, U+001C to U+001F, U+0020. *)
Definition is_space (c : ascii) : bool :=
  let n := nat_of_ascii c in
  ((9 <=? n) && (n <=? 13) || (28 <=? n) && (n <=? 32))%nat.

(** Two bytes: U+0085 ([C2 85]) and U+00A0 ([C2 A0]). *)
Definition is_space2 (c1 c2 : ascii) : bool :=
  let a := nat_of_ascii c1 in
  let b := nat_of_ascii c2 in
  ((a =? 194) && ((b =? 133) || (b =? 160)))%nat.

(** Three bytes: U+1680 ([E1 9A 80]); U+2000 to U+200A, U+2028, U+2029,
    U+202F ([E2 80 80] to [E2 80 8A], [E2 80 A8], [E2 80 A9], [E2 80 AF]);
    U+205F ([E2 81 9F]); U+3000 ([E3 80 80]). *)
Definition is_space3 (c1 c2 c3 : ascii) : bool :=
  let a := nat_of_ascii c1 in
  let b := nat_of_ascii c2 in
  let d := nat_of_ascii c3 in
  ((a =? 225) && (b =? 154) && (d =? 128)
   || (a =? 226) && (b =? 128)
      && ((128 <=? d) && (d <=? 138) || (d =? 168) || (d =? 169) || (d =? 175))
   || (a =? 226) && (b =? 129) && (d =? 159)
   || (a =? 227) && (b =? 128) && (d =? 128))%nat.

Fixpoint lstrip (s : string) : string :=
  match s with
  | EmptyString => EmptyString
  | String c1 s1 =>
      if is_space c1 then lstrip s1
      else
        match s1 with
        | EmptyString => s
        | String c2 s2 =>
            if is_space2 c1 c2 then lstrip s2
            else
              match s2 with
              | EmptyString => s
              | String c3 s3 => if is_space3 c1 c2 c3 then lstrip s3 else s
              end
        end
  end.

Fixpoint rev_onto (s acc : string) : string :=
  match s with
  | EmptyString => acc
  | String c s' => rev_onto s' (String c acc)
  end.

(** The bytes of [s] in reverse order. *)
Definition reversed (s : string) : string := rev_onto s EmptyString.

(** [lstrip] on the reversed bytes: each white space read last byte first. *)
Fixpoint lstrip_reversed (s : string) : string :=
  match s with
  | EmptyString => EmptyString
  | String c1 s1 =>
      if is_space c1 then lstrip_reversed s1
      else
        match s1 with
        | EmptyString => s
        | String c2 s2 =>
            if is_space2 c2 c1 then lstrip_reversed s2
            else
              match s2 with
              | EmptyString => s
              | String c3 s3 => if is_space3 c3 c2 c1 then lstrip_reversed s3 else s
              end
        end
  end.

Definition rstrip (s : string) : string :=
  reversed (lstrip_reversed (reversed s)).

Definition strip (s : string) : string := rstrip (lstrip s).

(** [x in xs] for strings. *)
Definition str_in (x : string) (xs : list string) : bool :=
  existsb (String.eqb x) xs.

(** ** ANSI colour codes *)

Module Colors.
Definition RED : string := ESC ++ "[91m".
Definition GREEN : string := ESC ++ "[92m".
Definition YELLOW : string := ESC ++ "[93m".
Definition BLUE : string := ESC ++ "[94m".
Definition MAGENTA : string := ESC ++ "[95m".
Definition CYAN : string := ESC ++ "[96m".
Definition WHITE : string := ESC ++ "[97m".
Definition BOLD : string := ESC ++ "[1m".
Definition UNDERLINE : string := ESC ++ "[4m".
Definition END : string := ESC ++ "[0m".
End Colors.

(** ** The world outside the script *)

(** What a program started with some argument vector does, as the
    operating system decides it. *)
Inductive behaviour : Type :=
| NoSpawn (msg : string)
    (* the program cannot be started; [msg] is [str(e)] of the error *)
| Terminates (after : Q) (returncode : Z) (out err : string)
    (* it runs for [after] seconds, then exits *)
| Garbled (after : Q) (msg : string)
    (* it exits, but collecting its output raises; [msg] is [str(e)] *)
| Hangs.
    (* it never exits by itself *)

(** One check invocation, as the world sees it. *)
Inductive event : Type :=
| Exec (argv : list string)
| Probe (filename : string).

Record World : Type := mkWorld {
  console : list string;          (* what [print] wrote, one entry per call *)
  trace : list event;             (* invocations made so far, oldest first *)
  children : list nat;            (* child processes still running *)
  os : nat -> list string -> behaviour;
                                  (* behaviour of the [n]-th invocation *)
  fs : nat -> string -> bool;     (* does the path exist at invocation [n] *)
  elapsed : string                (* the run's elapsed seconds, as [.2f] *)
}.

(** ** State monad *)

Definition ST (S A : Type) : Type := S -> A * S.

Definition ret {S A} (a : A) : ST S A := fun s => (a, s).

Definition bind {S A B} (m : ST S A) (k : A -> ST S B) : ST S B :=
  fun s => let (a, s') := m s in k a s'.

Declare Scope st_scope.
Delimit Scope st_scope with st.
Notation "x <- m ;; k" := (bind m (fun x => k))
  (at level 61, m at next level, right associativity) : st_scope.
Notation "m ;; k" := (bind m (fun _ => k))
  (at level 61, right associativity) : st_scope.
Local Open Scope st_scope.

Definition gets {S A} (f : S -> A) : ST S A := fun s => (f s, s).
Definition modify {S} (f : S -> S) : ST S unit := fun s => (tt, f s).

Definition IO : Type -> Type := ST World.

Definition set_console (c : list string) (w : World) : World :=
  mkWorld c (trace w) (children w) (os w) (fs w) (elapsed w).
Definition set_trace (t : list event) (w : World) : World :=
  mkWorld (console w) t (children w) (os w) (fs w) (elapsed w).
Definition set_children (c : list nat) (w : World) : World :=
  mkWorld (console w) (trace w) c (os w) (fs w) (elapsed w).

(** [print(s)]. *)
Definition print (s : string) : IO unit :=
  modify (fun w => set_console (console w ++ [s]) w).

Definition log (e : event) : IO unit :=
  modify (fun w => set_trace (trace w ++ [e]) w).

(** ** Python library calls *)

(** [Path(filename).exists()]. *)
Definition path_exists (filename : string) : IO bool :=
  n <- gets (fun w => length (trace w)) ;;
  log (Probe filename) ;;
  gets (fun w => fs w n filename).

(** Outcome of [subprocess.run]: a [CompletedProcess], or one of the two
    exception classes that [run_command] tells apart. *)
Inductive run_result : Type :=
| Completed (returncode : Z) (stdout stderr : string)
| TimeoutExpired
| Raised (msg : string).

Definition spawn (pid : nat) : IO unit :=
  modify (fun w => set_children (children w ++ [pid]) w).

(** The child has exited or was killed, and has been waited for. *)
Definition reap (pid : nat) : IO unit :=
  modify (fun w => set_children (filter (fun p => negb (Nat.eqb p pid)) (children w)) w).

(** [subprocess.run(cmd, capture_output=True, text=True, timeout=t)] as
    the standard library documents it: the child is started, its output
    collected for at most [t] seconds; when the time is up, or when
    collecting raises, the child is killed and waited for before the
    exception reaches the caller. *)
Definition subprocess_run (cmd : list string) (timeout : Q) : IO run_result :=
  pid <- gets (fun w => length (trace w)) ;;
  log (Exec cmd) ;;
  b <- gets (fun w => os w pid cmd) ;;
  match b with
  | NoSpawn msg => ret (Raised msg)
  | Terminates after returncode out err =>
      spawn pid ;;
      if Qle_bool after timeout
      then reap pid ;; ret (Completed returncode out err)
      else reap pid ;; ret TimeoutExpired
  | Garbled after msg =>
      spawn pid ;;
      if Qle_bool after timeout
      then reap pid ;; ret (Raised msg)
      else reap pid ;; ret TimeoutExpired
  | Hangs =>
      spawn pid ;; reap pid ;; ret TimeoutExpired
  end.

(** ** The controller object *)

Record CrateChecker : Type := mkChecker {
  passed_checks : Z;
  total_checks : Z;
  failed_checks : list string;
  warnings : list string
}.

Definition __init__ : CrateChecker := mkChecker 0 0 [] [].

(** A method runs on the object and the world. *)
Definition Method : Type -> Type := ST (CrateChecker * World).

Definition io {A} (m : IO A) : Method A :=
  fun s => let (a, w') := m (snd s) in (a, (fst s, w')).

Definition self_set (f : CrateChecker -> CrateChecker) : Method unit :=
  modify (fun s => (f (fst s), snd s)).

Definition self_get {A} (f : CrateChecker -> A) : Method A :=
  gets (fun s => f (fst s)).

Definition incr_total : CrateChecker -> CrateChecker :=
  fun c => mkChecker (passed_checks c) (total_checks c + 1) (failed_checks c) (warnings c).
Definition incr_passed : CrateChecker -> CrateChecker :=
  fun c => mkChecker (passed_checks c + 1) (total_checks c) (failed_checks c) (warnings c).
Definition append_failed (msg : string) : CrateChecker -> CrateChecker :=
  fun c => mkChecker (passed_checks c) (total_checks c) (failed_checks c ++ [msg]) (warnings c).
Definition append_warning (msg : string) : CrateChecker -> CrateChecker :=
  fun c => mkChecker (passed_checks c) (total_checks c) (failed_checks c) (warnings c ++ [msg]).

(** A [for] loop over a list, carrying the loop's local variable. *)
Fixpoint for_each {S A B} (xs : list A) (body : A -> B -> ST S B) (acc : B) : ST S B :=
  match xs with
  | [] => ret acc
  | x :: xs' => acc' <- body x acc ;; for_each xs' body acc'
  end.

Definition print_header (title : string) : Method unit :=
  io (print (NL ++ Colors.CYAN ++ Colors.BOLD ++ str_repeat "=" 60 ++ Colors.END)) ;;
  io (print (Colors.CYAN ++ Colors.BOLD ++ center title 60 ++ Colors.END)) ;;
  io (print (Colors.CYAN ++ Colors.BOLD ++ str_repeat "=" 60 ++ Colors.END)).

Definition print_step (step : string) : Method unit :=
  io (print (NL ++ Colors.BLUE ++ "🔍 " ++ step ++ Colors.END)).

(** The fixed time limit of a command, in seconds. *)
Definition command_timeout : Q := 300%Q.

Definition run_command (cmd : list string) (description : string) (critical : bool)
  : Method (bool * string) :=
  self_set incr_total ;;
  io (print ("   Running: " ++ join " " cmd)) ;;
  result <- io (subprocess_run cmd command_timeout) ;;
  match result with
  | Completed returncode stdout stderr =>
      if returncode =? 0 then
        io (print ("   " ++ Colors.GREEN ++ "✅ " ++ description ++ " - PASSED" ++ Colors.END)) ;;
        self_set incr_passed ;;
        ret (true, stdout)
      else
        let error_msg := description ++ " - FAILED" in
        io (print ("   " ++ Colors.RED ++ "❌ " ++ error_msg ++ Colors.END)) ;;
        (if nonempty stderr
         then io (print ("   " ++ Colors.RED ++ "Error: " ++ strip stderr ++ Colors.END))
         else ret tt) ;;
        (if critical
         then self_set (append_failed error_msg)
         else self_set (append_warning error_msg)) ;;
        ret (false, stderr)
  | TimeoutExpired =>
      let error_msg := description ++ " - TIMEOUT" in
      io (print ("   " ++ Colors.RED ++ "⏰ " ++ error_msg ++ Colors.END)) ;;
      (if critical
       then self_set (append_failed error_msg)
       else self_set (append_warning error_msg)) ;;
      ret (false, "Command timed out")
  | Raised e =>
      let error_msg := description ++ " - ERROR: " ++ e in
      io (print ("   " ++ Colors.RED ++ "💥 " ++ error_msg ++ Colors.END)) ;;
      (if critical
       then self_set (append_failed error_msg)
       else self_set (append_warning error_msg)) ;;
      ret (false, e)
  end.

(** The body shared by the command phases' loops; [step] tells whether the
    phase announces each check with [print_step]. *)
Definition phase_body (step critical : bool) (check : list string * string)
    (all_passed : bool) : Method bool :=
  let (cmd, desc) := check in
  (if step then print_step desc else ret tt) ;;
  r <- run_command cmd desc critical ;;
  if negb (fst r) then ret false else ret all_passed.

(** The phases' check lists: the local [tools] of [check_prerequisites] and
    the local [checks] of the four phases after it. *)
Definition tools : list (list string * string) :=
  [ (["cargo"; "--version"], "Cargo availability");
    (["rustc"; "--version"], "Rust compiler availability");
    (["git"; "--version"], "Git availability") ].

Definition core_checks : list (list string * string) :=
  [ (["cargo"; "check"], "Basic compilation check");
    (["cargo"; "build"], "Full build");
    (["cargo"; "build"; "--release"], "Release build");
    (["cargo"; "test"], "All tests");
    (["cargo"; "test"; "--all-targets"], "All targets tests") ].

Definition quality_checks : list (list string * string) :=
  [ (["cargo"; "fmt"; "--all"; "--check"], "Code formatting");
    (["cargo"; "clippy"; "--all-targets"; "--all-features"; "--"; "-D"; "warnings"],
     "Clippy linting");
    (["cargo"; "check"; "--all-targets"; "--all-features"], "All features check") ].

Definition documentation_list : list (list string * string) :=
  [ (["cargo"; "doc"; "--no-deps"], "Basic documentation");
    (["cargo"; "doc"; "--all-features"; "--no-deps"], "Documentation with all features") ].

Definition package_checks : list (list string * string) :=
  [ (["cargo"; "package"; "--list"], "Package file list");
    (["cargo"; "package"; "--allow-dirty"], "Package creation") ].

Definition check_prerequisites : Method bool :=
  print_header "PREREQUISITE CHECKS" ;;
  for_each tools (phase_body false true) true.

Definition core_compilation_tests : Method bool :=
  print_header "CORE COMPILATION & TESTING" ;;
  for_each core_checks (phase_body true true) true.

Definition code_quality_checks : Method bool :=
  print_header "CODE QUALITY CHECKS" ;;
  for_each quality_checks (phase_body true true) true.

Definition documentation_checks : Method bool :=
  print_header "DOCUMENTATION CHECKS" ;;
  for_each documentation_list (phase_body true false) true.

Definition package_validation : Method bool :=
  print_header "PACKAGE VALIDATION" ;;
  for_each package_checks (phase_body true false) true.

(** The body of the loop of [metadata_checks]. *)
Definition metadata_body (file : string * string) (all_passed : bool) : Method bool :=
  let (filename, desc) := file in
  print_step ("Checking " ++ desc) ;;
  found <- io (path_exists filename) ;;
  all_passed' <-
    (if found then
       io (print ("   " ++ Colors.GREEN ++ "✅ " ++ desc ++ " - EXISTS" ++ Colors.END)) ;;
       self_set incr_passed ;;
       ret all_passed
     else
       io (print ("   " ++ Colors.YELLOW ++ "⚠️  " ++ desc ++ " - MISSING" ++ Colors.END)) ;;
       self_set (append_warning (desc ++ " missing")) ;;
       if str_in filename ["Cargo.toml"] then ret false else ret all_passed) ;;
  self_set incr_total ;;
  ret all_passed'.

Definition required_files : list (string * string) :=
  [ ("Cargo.toml", "Cargo manifest");
    ("README.md", "README file");
    ("LICENSE", "License file") ].

Definition metadata_checks : Method bool :=
  print_header "METADATA & FILES CHECK" ;;
  for_each required_files metadata_body true.

(** Truth value of a list: empty is false. *)
Definition truthy {A} (xs : list A) : bool :=
  match xs with
  | [] => false
  | _ :: _ => true
  end.

(** The three closing messages of [print_summary]. *)
Definition ready_message : list string :=
  [ NL ++ Colors.GREEN ++ Colors.BOLD ++ "🎉 CRATE IS READY FOR CRATES.IO RELEASE! 🎉" ++ Colors.END;
    Colors.GREEN ++ "All checks passed with no failures or warnings. You can proceed with publishing."
      ++ Colors.END ].

Definition warnings_message : list string :=
  [ NL ++ Colors.YELLOW ++ Colors.BOLD ++ "⚠️  CRATE NOT READY - WARNINGS MUST BE FIXED" ++ Colors.END;
    Colors.YELLOW ++ "All critical checks passed, but warnings must be addressed before release."
      ++ Colors.END;
    Colors.YELLOW ++ "Please fix the warnings above to proceed with publishing." ++ Colors.END ].

Definition failures_message : list string :=
  [ NL ++ Colors.RED ++ Colors.BOLD ++ "🚫 CRATE NOT READY FOR RELEASE" ++ Colors.END;
    Colors.RED ++ "Please fix the critical failures and warnings before publishing." ++ Colors.END ].

(** [for line in lines: print(line)]. *)
Definition print_all (lines : list string) : Method unit :=
  for_each lines (fun line _ => io (print line)) tt.

Definition print_summary : Method bool :=
  print_header "FINAL SUMMARY" ;;
  io (print (NL ++ Colors.BOLD ++ "📊 RESULTS SUMMARY:" ++ Colors.END)) ;;
  total <- self_get total_checks ;;
  io (print ("   Total Checks: " ++ str_of_int total)) ;;
  passed <- self_get passed_checks ;;
  io (print ("   " ++ Colors.GREEN ++ "Passed: " ++ str_of_int passed ++ Colors.END)) ;;
  failed <- self_get failed_checks ;;
  io (print ("   " ++ Colors.RED ++ "Failed: " ++ str_of_int (len failed) ++ Colors.END)) ;;
  warns <- self_get warnings ;;
  io (print ("   " ++ Colors.YELLOW ++ "Warnings: " ++ str_of_int (len warns) ++ Colors.END)) ;;
  (if truthy failed then
     io (print (NL ++ Colors.RED ++ Colors.BOLD ++ "❌ CRITICAL FAILURES:" ++ Colors.END)) ;;
     print_all (map (fun failure => "   " ++ Colors.RED ++ "• " ++ failure ++ Colors.END) failed)
   else ret tt) ;;
  (if truthy warns then
     io (print (NL ++ Colors.YELLOW ++ Colors.BOLD ++ "⚠️  WARNINGS:" ++ Colors.END)) ;;
     print_all (map (fun warning => "   " ++ Colors.YELLOW ++ "• " ++ warning ++ Colors.END) warns)
   else ret tt) ;;
  if negb (truthy failed) && negb (truthy warns) then
    print_all ready_message ;; ret true
  else if negb (truthy failed) && truthy warns then
    print_all warnings_message ;; ret false
  else
    print_all failures_message ;; ret false.

(** The five accumulating lines of [run_all_checks]; the value is the
    local [checks_passed] after them. *)
Definition later_phases (checks_passed : bool) : Method bool :=
  r <- core_compilation_tests ;;
  let checks_passed := checks_passed && r in
  r <- code_quality_checks ;;
  let checks_passed := checks_passed && r in
  r <- documentation_checks ;;
  let checks_passed := checks_passed && r in
  r <- package_validation ;;
  let checks_passed := checks_passed && r in
  r <- metadata_checks ;;
  let checks_passed := checks_passed && r in
  ret checks_passed.

Definition run_all_checks : Method bool :=
  io (print (Colors.MAGENTA ++ Colors.BOLD)) ;;
  io (print "🦀 RUST CRATE QUALITY CHECKER 🦀") ;;
  io (print "Comprehensive validation for crates.io release") ;;
  io (print (str_repeat "=" 50 ++ Colors.END)) ;;
  let checks_passed := true in
  ok <- check_prerequisites ;;
  if negb ok then
    io (print (NL ++ Colors.RED ++ "❌ Prerequisites failed. Cannot continue." ++ Colors.END)) ;;
    ret false
  else
    checks_passed <- later_phases checks_passed ;;
    t <- io (gets elapsed) ;;
    io (print (NL ++ Colors.CYAN ++ "⏱️  Total execution time: " ++ t ++ " seconds" ++ Colors.END)) ;;
    print_summary.

Definition usage : list string :=
  [ "CrateCheck - Rust Crate Quality Validator";
    "Usage: python cratecheck.py";
    NL ++ "Runs comprehensive checks for crates.io release readiness:";
    "• Compilation and testing";
    "• Code quality (fmt, clippy)";
    "• Documentation generation";
    "• Package validation";
    "• Metadata verification" ].

(** Run a method on an object, giving back the object as the method left it. *)
Definition call {A} (m : Method A) (self : CrateChecker) : IO (A * CrateChecker) :=
  fun w => let '(a, (c, w')) := m (self, w) in ((a, c), w').

(** The guard of [main]: [len(sys.argv) > 1 and sys.argv[1] in ["-h", "--help"]]. *)
Definition help_requested (argv : list string) : bool :=
  (1 <? len argv) && str_in (nth 1 argv "") ["-h"; "--help"].

(** [main] with [sys.argv]; the value is the process's exit status, with
    the controller it created, if any. *)
Definition main (argv : list string) : IO (Z * option CrateChecker) :=
  if help_requested argv then
    for_each usage (fun line _ => print line) tt ;;
    ret (0, None)
  else
    r <- call run_all_checks __init__ ;;
    let (success, checker) := r in
    ret (if success then 0 else 1, Some checker).

(** ** Example worlds *)

Definition blank (os : nat -> list string -> behaviour) (fs : nat -> string -> bool) : World :=
  mkWorld [] [] [] os fs "0.00".

(** Every tool exits with status 0 after a second; every file exists. *)
Definition healthy : World :=
  blank (fun _ _ => Terminates 1 0 "ok" "") (fun _ _ => true).

(** As [healthy], but only the manifest exists. *)
Definition manifest_only : World :=
  blank (fun _ _ => Terminates 1 0 "ok" "") (fun _ f => String.eqb f "Cargo.toml").

(** As [healthy], but there is no manifest. *)
Definition no_manifest : World :=
  blank (fun _ _ => Terminates 1 0 "ok" "") (fun _ f => negb (String.eqb f "Cargo.toml")).

(** [git] is not installed. *)
Definition no_git : World :=
  blank (fun _ argv =>
           if str_in "git" argv
           then NoSpawn "[Errno 2] No such file or directory: 'git'"
           else Terminates 1 0 "ok" "")
        (fun _ _ => true).

(** Neither [cargo] nor [rustc] is installed; [git] is. *)
Definition no_rust : World :=
  blank (fun _ argv =>
           if str_in "git" argv
           then Terminates 1 0 "git version 2.43.0" ""
           else NoSpawn "[Errno 2] No such file or directory")
        (fun _ _ => true).

(** [cargo check] exits with status 1 and writes nothing to standard error. *)
Definition silent_failure : World :=
  blank (fun _ argv =>
           if str_in "check" argv then Terminates 1 1 "" ""
           else Terminates 1 0 "ok" "")
        (fun _ _ => true).

(** [cargo test] fails; the documentation builds never finish. *)
Definition troubled : World :=
  blank (fun _ argv =>
           if str_in "test" argv then Terminates 2 101 "" "test failed"
           else if str_in "doc" argv then Hangs
           else Terminates 1 0 "ok" "")
        (fun _ _ => true).

(** * Vocabulary for the properties *)

#[local] Arguments String.append : simpl never.
Local Open Scope list_scope.

(** [extends w w' evs]: from [w] to [w'] exactly the invocations [evs] were
    made, lines were only added to the console, no child process was left
    behind, and the environment is the same. *)
Record extends (w w' : World) (evs : list event) : Prop := mkExtends {
  ext_trace : trace w' = trace w ++ evs;
  ext_console : exists lines, console w' = console w ++ lines;
  ext_children : forall p, In p (children w') -> In p (children w);
  ext_os : os w' = os w;
  ext_fs : fs w' = fs w;
  ext_elapsed : elapsed w' = elapsed w
}.

(** A method that only prints: the object is untouched and the world
    gains console lines. *)
Definition prints {A} (m : Method A) (a : A) : Prop :=
  forall c w, exists lines, m (c, w) = (a, (c, set_console (console w ++ lines) w)).

(** The result [subprocess_run] hands to [run_command], by behaviour. *)
Definition result_of (b : behaviour) : run_result :=
  match b with
  | NoSpawn msg => Raised msg
  | Terminates after returncode out err =>
      if Qle_bool after command_timeout then Completed returncode out err else TimeoutExpired
  | Garbled after msg =>
      if Qle_bool after command_timeout then Raised msg else TimeoutExpired
  | Hangs => TimeoutExpired
  end.

Definition passes (r : run_result) : bool :=
  match r with
  | Completed returncode _ _ => returncode =? 0
  | _ => false
  end.

Definition failure_label (description : string) (r : run_result) : string :=
  match r with
  | Completed _ _ _ => (description ++ " - FAILED")%string
  | TimeoutExpired => (description ++ " - TIMEOUT")%string
  | Raised e => (description ++ " - ERROR: " ++ e)%string
  end.

Definition returned_text (r : run_result) : string :=
  match r with
  | Completed returncode stdout stderr => if returncode =? 0 then stdout else stderr
  | TimeoutExpired => "Command timed out"
  | Raised e => e
  end.

(** The object after a check with result [r] was recorded. *)
Definition record (critical : bool) (description : string) (r : run_result)
    (c : CrateChecker) : CrateChecker :=
  if passes r then incr_passed (incr_total c)
  else if critical then append_failed (failure_label description r) (incr_total c)
  else append_warning (failure_label description r) (incr_total c).

(** Was a child process created at all. *)
Definition started (b : behaviour) : bool :=
  match b with
  | NoSpawn _ => false
  | _ => true
  end.

(** The loop of a command phase, on the object alone: [o] is the world's
    oracle and [n] the number of invocations made before the loop. *)
Fixpoint phase_fold (critical : bool) (o : nat -> list string -> behaviour) (n : nat)
    (checks : list (list string * string)) (all_passed : bool) (c : CrateChecker)
  : bool * CrateChecker :=
  match checks with
  | [] => (all_passed, c)
  | (cmd, desc) :: rest =>
      let r := result_of (o n cmd) in
      phase_fold critical o (S n) rest
        (if negb (passes r) then false else all_passed)
        (record critical desc r c)
  end.

(** What the loop of [metadata_checks] records in the object: [f] is the
    world's file oracle and [n] the number of invocations made before the
    loop. *)
Fixpoint metadata_fold (f : nat -> string -> bool) (n : nat)
    (files : list (string * string)) (c : CrateChecker) : CrateChecker :=
  match files with
  | [] => c
  | (filename, desc) :: rest =>
      if f n filename
      then metadata_fold f (S n) rest (incr_total (incr_passed c))
      else metadata_fold f (S n) rest (incr_total (append_warning (desc ++ " missing") c))
  end.

Definition execs (checks : list (list string * string)) : list event :=
  map (fun check => Exec (fst check)) checks.

Definition probes (files : list (string * string)) : list event :=
  map (fun file => Probe (fst file)) files.

Definition ends_with {A} (xs suffix : list A) : Prop :=
  exists pre, xs = pre ++ suffix.

(** The value of [print_summary], from the two lists. *)
Definition ready (c : CrateChecker) : bool :=
  negb (truthy (failed_checks c)) && negb (truthy (warnings c)).

(** The message [print_summary] closes with, from the two lists. *)
Definition closing_message (c : CrateChecker) : list string :=
  if negb (truthy (failed_checks c)) && negb (truthy (warnings c)) then ready_message
  else if negb (truthy (failed_checks c)) && truthy (warnings c) then warnings_message
  else failures_message.

(** A method that reads the object and prints, closing with [suffix]. *)
Definition reports {A} (m : Method A) (c : CrateChecker) (a : A) (suffix : list string) : Prop :=
  forall w, exists lines, m (c, w) = (a, (c, set_console (console w ++ lines ++ suffix) w)).

(** Do all checks of a command phase pass, by the oracle. *)
Fixpoint all_pass (o : nat -> list string -> behaviour) (n : nat)
    (checks : list (list string * string)) : bool :=
  match checks with
  | [] => true
  | (cmd, _) :: rest => passes (result_of (o n cmd)) && all_pass o (S n) rest
  end.

(** The three tools answer, each at its turn, with exit status 0 in time. *)
Definition prerequisites_pass (w : World) : bool :=
  all_pass (os w) (length (trace w)) tools.

(** What the five phases after the prerequisites record in the object. *)
Definition later_fold (o : nat -> list string -> behaviour) (f : nat -> string -> bool)
    (n : nat) (c : CrateChecker) : CrateChecker :=
  let p1 := phase_fold true o n core_checks true c in
  let p2 := phase_fold true o (n + 5) quality_checks true (snd p1) in
  let p3 := phase_fold false o (n + 8) documentation_list true (snd p2) in
  let p4 := phase_fold false o (n + 10) package_checks true (snd p3) in
  metadata_fold f (n + 12) required_files (snd p4).

Definition later_events : list event :=
  execs core_checks ++ execs quality_checks ++ execs documentation_list
    ++ execs package_checks ++ probes required_files.

(** The object when the prerequisites phase is over. *)
Definition after_prerequisites (w : World) (c : CrateChecker) : CrateChecker :=
  snd (phase_fold true (os w) (length (trace w)) tools true c).

(** The object when the summary runs. *)
Definition at_summary (w : World) (c : CrateChecker) : CrateChecker :=
  later_fold (os w) (fs w) (length (trace w) + 3) (after_prerequisites w c).

Definition balanced (c : CrateChecker) : Prop :=
  total_checks c = passed_checks c + len (failed_checks c) + len (warnings c).

(** The world in which [later_phases] runs, and the flag it computes. *)
Definition world_after_prerequisites (w : World) : World :=
  snd (snd (check_prerequisites (__init__, w))).

Definition checks_passed_flag (w : World) : bool :=
  fst (later_phases true (after_prerequisites w __init__, world_after_prerequisites w)).

(** The controller [main] ends with in the [troubled] world. *)
Definition troubled_checker : CrateChecker :=
  mkChecker 14 18
    ["All tests - FAILED"; "All targets tests - FAILED"]%string
    ["Basic documentation - TIMEOUT"; "Documentation with all features - TIMEOUT"]%string.

(** Did the command run past the time limit. *)
Definition exceeds_timeout (b : behaviour) : bool :=
  match b with
  | NoSpawn _ => false
  | Terminates after _ _ _ => negb (Qle_bool after command_timeout)
  | Garbled after _ => negb (Qle_bool after command_timeout)
  | Hangs => true
  end.

Fixpoint last_char (s : string) : option ascii :=
  match s with
  | EmptyString => None
  | String c EmptyString => Some c
  | String _ s' => last_char s'
  end.

(** ** Vocabulary for the further properties *)

(** [ys] is [xs] with entries added at the end. *)
Definition grows {A} (xs ys : list A) : Prop :=
  exists more, ys = xs ++ more.

(** The object only gained: counters did not decrease, lists kept their
    entries in place. *)
Definition advances (c c' : CrateChecker) : Prop :=
  passed_checks c <= passed_checks c'
  /\ total_checks c <= total_checks c'
  /\ grows (failed_checks c) (failed_checks c')
  /\ grows (warnings c) (warnings c').

(** Nothing is recorded in either list. *)
Definition quiet (c : CrateChecker) : Prop :=
  failed_checks c = [] /\ warnings c = [].

(** Do all files exist, each at its probe. *)
Fixpoint all_exist (f : nat -> string -> bool) (n : nat)
    (files : list (string * string)) : bool :=
  match files with
  | [] => true
  | (filename, _) :: rest => f n filename && all_exist f (S n) rest
  end.

(** The warning labels of the files that are missing, in probe order. *)
Fixpoint missing_labels (f : nat -> string -> bool) (n : nat)
    (files : list (string * string)) : list string :=
  match files with
  | [] => []
  | (filename, desc) :: rest =>
      (if f n filename then [] else [(desc ++ " missing")%string])
        ++ missing_labels f (S n) rest
  end.

(** Every one of the eighteen checks of a run started in [w] passes. *)
Definition everything_passes (w : World) : bool :=
  let m := (length (trace w) + 3)%nat in
  prerequisites_pass w
  && all_pass (os w) m core_checks
  && all_pass (os w) (m + 5) quality_checks
  && all_pass (os w) (m + 8) documentation_list
  && all_pass (os w) (m + 10) package_checks
  && all_exist (fs w) (m + 12) required_files.

(** An oracle that answers the same at every invocation. *)
Definition steady {A B} (o : nat -> A -> B) : Prop :=
  forall n m x, o n x = o m x.

(** The line [run_all_checks] prints when it gives up on the prerequisites. *)
Definition abort_line : string :=
  (NL ++ Colors.RED ++ "❌ Prerequisites failed. Cannot continue." ++ Colors.END)%string.

(** The three lines of [print_header]. *)
Definition header_lines (title : string) : list string :=
  [ (NL ++ Colors.CYAN ++ Colors.BOLD ++ str_repeat "=" 60 ++ Colors.END)%string;
    (Colors.CYAN ++ Colors.BOLD ++ center title 60 ++ Colors.END)%string;
    (Colors.CYAN ++ Colors.BOLD ++ str_repeat "=" 60 ++ Colors.END)%string ].

Definition failure_bullet (failure : string) : string :=
  ("   " ++ Colors.RED ++ "• " ++ failure ++ Colors.END)%string.

Definition warning_bullet (warning : string) : string :=
  ("   " ++ Colors.YELLOW ++ "• " ++ warning ++ Colors.END)%string.

(** Everything [print_summary] writes for a controller, in order. *)
Definition summary_report (c : CrateChecker) : list string :=
  header_lines "FINAL SUMMARY"
  ++ [ (NL ++ Colors.BOLD ++ "📊 RESULTS SUMMARY:" ++ Colors.END)%string;
       ("   Total Checks: " ++ str_of_int (total_checks c))%string;
       ("   " ++ Colors.GREEN ++ "Passed: " ++ str_of_int (passed_checks c) ++ Colors.END)%string;
       ("   " ++ Colors.RED ++ "Failed: " ++ str_of_int (len (failed_checks c))
          ++ Colors.END)%string;
       ("   " ++ Colors.YELLOW ++ "Warnings: " ++ str_of_int (len (warnings c))
          ++ Colors.END)%string ]
  ++ (if truthy (failed_checks c)
      then (NL ++ Colors.RED ++ Colors.BOLD ++ "❌ CRITICAL FAILURES:" ++ Colors.END)%string
           :: map failure_bullet (failed_checks c)
      else [])
  ++ (if truthy (warnings c)
      then (NL ++ Colors.YELLOW ++ Colors.BOLD ++ "⚠️  WARNINGS:" ++ Colors.END)%string
           :: map warning_bullet (warnings c)
      else [])
  ++ closing_message c.

(** A method that reads the object and writes exactly [lines]. *)
Definition writes {A} (m : Method A) (c : CrateChecker) (a : A) (lines : list string) : Prop :=
  forall w, m (c, w) = (a, (c, set_console (console w ++ lines) w)).

(** The lines [run_command] writes, by the result of the command. *)
Definition command_lines (cmd : list string) (description : string) (r : run_result)
  : list string :=
  ("   Running: " ++ join " " cmd)%string
  :: match r with
     | Completed returncode _ stderr =>
         if returncode =? 0
         then [("   " ++ Colors.GREEN ++ "✅ " ++ description ++ " - PASSED" ++ Colors.END)%string]
         else ("   " ++ Colors.RED ++ "❌ " ++ failure_label description r ++ Colors.END)%string
              :: (if nonempty stderr
                  then [("   " ++ Colors.RED ++ "Error: " ++ strip stderr ++ Colors.END)%string]
                  else [])
     | TimeoutExpired =>
         [("   " ++ Colors.RED ++ "⏰ " ++ failure_label description r ++ Colors.END)%string]
     | Raised _ =>
         [("   " ++ Colors.RED ++ "💥 " ++ failure_label description r ++ Colors.END)%string]
     end.



(** A title in a field of sixty columns: spaces on both sides, the odd
    one on the right. *)
Definition padded (title : string) : string :=
  let n := code_points title in
  if (60 <=? n)%nat then title
  else (str_repeat " " ((60 - n) / 2) ++ title
          ++ str_repeat " " (60 - n - (60 - n) / 2))%string.

(** The line [run_all_checks] writes before the summary. *)
Definition timing_line (t : string) : string :=
  (NL ++ Colors.CYAN ++ "⏱️  Total execution time: " ++ t ++ " seconds" ++ Colors.END)%string.

(** * Reasoning about runs *)

(** ** How a run extends the world *)

Lemma extends_refl w : extends w w [].
Proof.
  split; auto.
  - now rewrite app_nil_r.
  - exists []. now rewrite app_nil_r.
Qed.

Lemma extends_trans w1 w2 w3 evs1 evs2 :
  extends w1 w2 evs1 -> extends w2 w3 evs2 -> extends w1 w3 (evs1 ++ evs2).
Proof.
  intros [T1 [l1 C1] K1 O1 F1 E1] [T2 [l2 C2] K2 O2 F2 E2].
  split; try congruence; auto.
  - now rewrite T2, T1, app_assoc.
  - exists (l1 ++ l2). now rewrite C2, C1, app_assoc.
Qed.

Lemma extends_console w lines :
  extends w (set_console (console w ++ lines) w) [].
Proof.
  split; simpl; auto.
  - now rewrite app_nil_r.
  - now exists lines.
Qed.

Lemma extends_then_print w w' evs lines :
  extends w w' evs -> extends w (set_console (console w' ++ lines) w') evs.
Proof.
  intros X. rewrite <- (app_nil_r evs). exact (extends_trans X (extends_console w' lines)).
Qed.

Lemma extends_after_print w w' evs lines :
  extends (set_console (console w ++ lines) w) w' evs -> extends w w' evs.
Proof. intros X. exact (extends_trans (extends_console w lines) X). Qed.
Arguments extends_after_print {w w' evs lines} _.

Lemma extends_length w w' evs :
  extends w w' evs -> length (trace w') = (length (trace w) + length evs)%nat.
Proof. intros X. now rewrite (ext_trace X), length_app. Qed.

(** ** Stepping through [bind] *)

Lemma bind_eq {S A B} (m : ST S A) (k : A -> ST S B) s a s' :
  m s = (a, s') -> bind m k s = k a s'.
Proof. unfold bind. now intros ->. Qed.
Arguments bind_eq {S A B m} k {s a s'} _.

Lemma ret_eq {S A} (a : A) (s : S) : ret a s = (a, s).
Proof. reflexivity. Qed.

Lemma io_print_eq s c w :
  io (print s) (c, w) = (tt, (c, set_console (console w ++ [s]) w)).
Proof. reflexivity. Qed.

Lemma self_set_eq f c w : self_set f (c, w) = (tt, (f c, w)).
Proof. reflexivity. Qed.

Lemma self_get_eq {A} (f : CrateChecker -> A) c w : self_get f (c, w) = (f c, (c, w)).
Proof. reflexivity. Qed.

Lemma prints_print s : prints (io (print s)) tt.
Proof. intros c w. now exists [s]. Qed.

Lemma prints_ret {A} (a : A) : prints (ret a) a.
Proof.
  intros c w. exists []. unfold ret, set_console. rewrite app_nil_r. now destruct w.
Qed.

Lemma prints_bind {A B} (m : Method A) (k : A -> Method B) a b :
  prints m a -> prints (k a) b -> prints (bind m k) b.
Proof.
  intros Hm Hk c w.
  destruct (Hm c w) as [l1 E1]. rewrite (bind_eq _ E1).
  destruct (Hk c (set_console (console w ++ l1) w)) as [l2 E2]. rewrite E2.
  exists (l1 ++ l2). simpl. now rewrite app_assoc.
Qed.

Lemma prints_header title : prints (print_header title) tt.
Proof. unfold print_header. repeat (eapply prints_bind; [apply prints_print|]). apply prints_print. Qed.

Lemma prints_step step : prints (print_step step) tt.
Proof. apply prints_print. Qed.

Lemma prints_all lines : prints (print_all lines) tt.
Proof.
  unfold print_all. induction lines as [|l ls IH]; simpl.
  - apply prints_ret.
  - eapply prints_bind; [apply prints_print | exact IH].
Qed.

(** ** What one command execution does *)

Lemma reaped pid ch p :
  In p (filter (fun q => negb (Nat.eqb q pid)) (ch ++ [pid])) -> In p ch /\ p <> pid.
Proof.
  rewrite filter_In, in_app_iff. intros [[H|[H|[]]] N].
  - split; auto. intros ->. now rewrite Nat.eqb_refl in N.
  - subst. now rewrite Nat.eqb_refl in N.
Qed.

Lemma subprocess_run_effect cmd w :
  exists w',
    subprocess_run cmd command_timeout w = (result_of (os w (length (trace w)) cmd), w')
    /\ extends w w' [Exec cmd]
    /\ console w' = console w
    /\ (started (os w (length (trace w)) cmd) = true ->
        ~ In (length (trace w)) (children w')).
Proof.
  destruct w as [con tr ch o f el]. unfold subprocess_run, result_of, started. cbn.
  destruct (o (length tr) cmd) as [msg|after rc out err|after msg|]; cbn;
    try destruct (Qle_bool after command_timeout); cbn;
    (eexists; split; [reflexivity|]; cbn; repeat split; cbn; auto;
     try (now exists []; rewrite app_nil_r);
     try discriminate;
     try (intros p H; now apply reaped in H);
     try (intros _ H; apply reaped in H; now destruct H)).
Qed.

Lemma run_command_effect cmd desc critical c w :
  let b := os w (length (trace w)) cmd in
  exists w',
    run_command cmd desc critical (c, w)
      = ((passes (result_of b), returned_text (result_of b)),
         (record critical desc (result_of b) c, w'))
    /\ extends w w' [Exec cmd]
    /\ (started b = true -> ~ In (length (trace w)) (children w')).
Proof.
  intros b. unfold run_command.
  rewrite (bind_eq _ (self_set_eq _ _ _)).
  rewrite (bind_eq _ (io_print_eq _ _ _)).
  set (w1 := set_console _ w).
  destruct (subprocess_run_effect cmd w1) as (w2 & E & X & C & K).
  assert (Eio : io (subprocess_run cmd command_timeout) (incr_total c, w1)
                = (result_of b, (incr_total c, w2))).
  { unfold io. cbn [snd fst]. now rewrite E. }
  rewrite (bind_eq _ Eio). clear Eio E.
  apply extends_after_print in X.
  unfold record.
  destruct (result_of b) as [rc out err| |e]; cbn [passes returned_text failure_label];
    [destruct (rc =? 0); [|destruct (nonempty err)]| |];
    repeat rewrite (bind_eq _ (io_print_eq _ _ _));
    try rewrite (bind_eq _ (ret_eq tt _));
    try (destruct critical);
    rewrite (bind_eq _ (self_set_eq _ _ _));
    (eexists; split; [reflexivity|]; split; [|exact K]);
    repeat apply extends_then_print; exact X.
Qed.

(** ** What a phase does *)

Lemma extends_cons w w1 w2 e evs :
  extends w w1 [e] -> extends w1 w2 evs -> extends w w2 (e :: evs).
Proof. intros X1 X2. exact (extends_trans X1 X2). Qed.

Lemma extends_next w w' e :
  extends w w' [e] -> length (trace w') = S (length (trace w)).
Proof. intros X. rewrite (extends_length X). simpl. lia. Qed.

Lemma phase_body_effect step critical cmd desc all_passed c w :
  let r := result_of (os w (length (trace w)) cmd) in
  exists w',
    phase_body step critical (cmd, desc) all_passed (c, w)
      = (if negb (passes r) then false else all_passed, (record critical desc r c, w'))
    /\ extends w w' [Exec cmd].
Proof.
  intros r. unfold phase_body.
  assert (P : prints (if step then print_step desc else ret tt) tt)
    by (destruct step; [apply prints_step | apply prints_ret]).
  destruct (P c w) as [lines E]. clear P.
  rewrite (bind_eq _ E).
  set (w1 := set_console _ w).
  destruct (run_command_effect cmd desc critical c w1) as (w2 & E2 & X2 & _).
  change (os w1) with (os w) in E2. change (trace w1) with (trace w) in E2.
  rewrite (bind_eq _ E2). cbn [fst].
  apply extends_after_print in X2.
  exists w2. split; [|exact X2].
  fold r. now destruct (negb (passes r)).
Qed.

Lemma phase_loop_effect step critical checks :
  forall all_passed c w,
  exists w',
    for_each checks (phase_body step critical) all_passed (c, w)
      = (fst (phase_fold critical (os w) (length (trace w)) checks all_passed c),
         (snd (phase_fold critical (os w) (length (trace w)) checks all_passed c), w'))
    /\ extends w w' (execs checks).
Proof.
  induction checks as [|[cmd desc] rest IH]; intros all_passed c w.
  - exists w. split; [reflexivity | apply extends_refl].
  - cbn [for_each phase_fold execs map fst].
    destruct (phase_body_effect step critical cmd desc all_passed c w) as (w2 & E2 & X2).
    rewrite (bind_eq _ E2).
    set (r := result_of _) in *.
    destruct (IH (if negb (passes r) then false else all_passed)
                 (record critical desc r c) w2) as (w3 & E4 & X4).
    rewrite (ext_os X2), (extends_next X2) in E4.
    exists w3. split; [exact E4 | exact (extends_cons X2 X4)].
Qed.

Ltac explicit_extends :=
  split; cbn; auto;
  eexists; rewrite <- ?app_assoc; reflexivity.

Lemma metadata_body_effect filename desc all_passed c w :
  exists all_passed' w',
    metadata_body (filename, desc) all_passed (c, w)
      = (all_passed', (metadata_fold (fs w) (length (trace w)) [(filename, desc)] c, w'))
    /\ extends w w' [Probe filename].
Proof.
  destruct w as [con tr ch o f el]. unfold metadata_body, print_step. cbn.
  destruct (f (length tr) filename); cbn.
  - eexists _, _. split; [reflexivity|]. explicit_extends.
  - destruct (String.eqb filename "Cargo.toml"); cbn;
      (eexists _, _; split; [reflexivity|]; explicit_extends).
Qed.

Lemma metadata_fold_cons f n filename desc rest c :
  metadata_fold f n ((filename, desc) :: rest) c
  = metadata_fold f (S n) rest (metadata_fold f n [(filename, desc)] c).
Proof. cbn. now destruct (f n filename). Qed.

Lemma metadata_loop_effect files :
  forall all_passed c w,
  exists all_passed' w',
    for_each files metadata_body all_passed (c, w)
      = (all_passed', (metadata_fold (fs w) (length (trace w)) files c, w'))
    /\ extends w w' (probes files).
Proof.
  induction files as [|[filename desc] rest IH]; intros all_passed c w.
  - exists all_passed, w. split; [reflexivity | apply extends_refl].
  - cbn [for_each probes map fst].
    destruct (metadata_body_effect filename desc all_passed c w) as (b2 & w2 & E2 & X2).
    rewrite (bind_eq _ E2).
    rewrite (metadata_fold_cons (fs w) (length (trace w)) filename desc rest c).
    destruct (IH b2 (metadata_fold (fs w) (length (trace w)) [(filename, desc)] c) w2)
      as (b3 & w3 & E4 & X4).
    rewrite (ext_fs X2), (extends_next X2) in E4.
    exists b3, w3. split; [exact E4 | exact (extends_cons X2 X4)].
Qed.

(** A command phase: a header, then the loop. *)
Lemma phase_effect title step critical checks c w :
  exists w',
    (print_header title ;; for_each checks (phase_body step critical) true) (c, w)
      = (fst (phase_fold critical (os w) (length (trace w)) checks true c),
         (snd (phase_fold critical (os w) (length (trace w)) checks true c), w'))
    /\ extends w w' (execs checks).
Proof.
  destruct (prints_header title c w) as [lines E]. rewrite (bind_eq _ E).
  destruct (phase_loop_effect step critical checks true c (set_console (console w ++ lines) w))
    as (w' & E' & X').
  exists w'. split; [exact E' | exact (extends_after_print X')].
Qed.

Lemma metadata_checks_effect c w :
  exists all_passed w',
    metadata_checks (c, w)
      = (all_passed, (metadata_fold (fs w) (length (trace w)) required_files c, w'))
    /\ extends w w' (probes required_files).
Proof.
  unfold metadata_checks.
  destruct (prints_header "METADATA & FILES CHECK" c w) as [lines E]. rewrite (bind_eq _ E).
  destruct (metadata_loop_effect required_files true c (set_console (console w ++ lines) w))
    as (b & w' & E' & X').
  exists b, w'. split; [exact E' | exact (extends_after_print X')].
Qed.

(** The value of the metadata phase is the answer of the manifest probe. *)
Lemma metadata_checks_result c w :
  fst (metadata_checks (c, w)) = fs w (length (trace w)) "Cargo.toml"%string.
Proof.
  destruct w as [con tr ch o f el]. vm_compute.
  repeat (match goal with |- context [f ?n ?x] => destruct (f n x) end; vm_compute).
  all: reflexivity.
Qed.

(** ** The summary *)

Lemma print_all_eq lines : forall c w,
  print_all lines (c, w) = (tt, (c, set_console (console w ++ lines) w)).
Proof.
  unfold print_all. induction lines as [|l ls IH]; intros c w.
  - cbn. rewrite app_nil_r. now destruct w.
  - cbn [for_each]. rewrite (bind_eq _ (io_print_eq _ _ _)), IH.
    cbn. now rewrite <- app_assoc.
Qed.

Lemma reports_prints {A} (m : Method A) c a : prints m a -> reports m c a [].
Proof.
  intros H w. destruct (H c w) as [lines E]. exists lines. now rewrite app_nil_r.
Qed.

Lemma reports_get {A} (f : CrateChecker -> A) c : reports (self_get f) c (f c) [].
Proof.
  intros w. exists []. rewrite self_get_eq. cbn. rewrite app_nil_r. now destruct w.
Qed.

Lemma reports_bind {A B} (m : Method A) (k : A -> Method B) c a b suffix :
  reports m c a [] -> reports (k a) c b suffix -> reports (bind m k) c b suffix.
Proof.
  intros Hm Hk w.
  destruct (Hm w) as [l1 E1]. rewrite (bind_eq _ E1).
  destruct (Hk (set_console (console w ++ l1 ++ []) w)) as [l2 E2]. rewrite E2.
  exists (l1 ++ l2). cbn. now rewrite app_nil_r, <- !app_assoc.
Qed.

Lemma reports_closing {A} (message : list string) c (a : A) :
  reports (print_all message ;; ret a) c a message.
Proof.
  intros w. exists []. now rewrite (bind_eq _ (print_all_eq _ _ _)).
Qed.

Lemma prints_listing (show : bool) (head : string) (lines : list string) :
  prints (if show then io (print head) ;; print_all lines else ret tt) tt.
Proof.
  destruct show; [|apply prints_ret].
  eapply prints_bind; [apply prints_print | apply prints_all].
Qed.

Lemma print_summary_reports c : reports print_summary c (ready c) (closing_message c).
Proof.
  unfold print_summary.
  apply reports_bind with (a := tt); [apply reports_prints, prints_header|].
  apply reports_bind with (a := tt); [apply reports_prints, prints_print|].
  apply reports_bind with (a := total_checks c); [apply reports_get|].
  apply reports_bind with (a := tt); [apply reports_prints, prints_print|].
  apply reports_bind with (a := passed_checks c); [apply reports_get|].
  apply reports_bind with (a := tt); [apply reports_prints, prints_print|].
  apply reports_bind with (a := failed_checks c); [apply reports_get|].
  apply reports_bind with (a := tt); [apply reports_prints, prints_print|].
  apply reports_bind with (a := warnings c); [apply reports_get|].
  apply reports_bind with (a := tt); [apply reports_prints, prints_print|].
  apply reports_bind with (a := tt); [apply reports_prints, prints_listing|].
  apply reports_bind with (a := tt); [apply reports_prints, prints_listing|].
  unfold ready, closing_message.
  destruct (negb (truthy (failed_checks c)) && negb (truthy (warnings c)));
    [|destruct (negb (truthy (failed_checks c)) && truthy (warnings c))];
    apply reports_closing.
Qed.

Lemma print_summary_effect c w :
  exists w',
    print_summary (c, w) = (ready c, (c, w'))
    /\ extends w w' []
    /\ ends_with (console w') (closing_message c).
Proof.
  destruct (print_summary_reports c w) as [lines E].
  eexists. split; [exact E|]. split; [apply extends_console|].
  exists (console w ++ lines). cbn. now rewrite app_assoc.
Qed.

(** ** The whole run *)

Lemma phase_fold_fst critical o checks :
  forall n all_passed c,
    fst (phase_fold critical o n checks all_passed c) = all_passed && all_pass o n checks.
Proof.
  induction checks as [|[cmd desc] rest IH]; intros n all_passed c; cbn.
  - now rewrite andb_true_r.
  - rewrite IH. destruct (passes (result_of (o n cmd))), all_passed; reflexivity.
Qed.

Lemma later_phases_effect checks_passed c w :
  exists flag w',
    later_phases checks_passed (c, w)
      = (flag, (later_fold (os w) (fs w) (length (trace w)) c, w'))
    /\ extends w w' later_events.
Proof.
  unfold later_phases, later_fold. cbn zeta.
  set (n := length (trace w)).
  destruct (phase_effect "CORE COMPILATION & TESTING" true true core_checks c w)
    as (w1 & E1 & X1).
  fold core_compilation_tests in E1. rewrite (bind_eq _ E1). fold n.
  set (p1 := phase_fold true (os w) n core_checks true c).
  destruct (phase_effect "CODE QUALITY CHECKS" true true quality_checks (snd p1) w1)
    as (w2 & E2 & X2).
  fold code_quality_checks in E2. rewrite (bind_eq _ E2).
  rewrite (ext_os X1), (extends_length X1). fold n. cbn [execs core_checks map length].
  set (p2 := phase_fold true (os w) (n + 5) quality_checks true (snd p1)).
  pose proof (extends_trans X1 X2) as X12.
  destruct (phase_effect "DOCUMENTATION CHECKS" true false documentation_list (snd p2) w2)
    as (w3 & E3 & X3).
  fold documentation_checks in E3. rewrite (bind_eq _ E3).
  rewrite (ext_os X12), (extends_length X12). fold n.
  cbn [execs core_checks quality_checks map length app].
  set (p3 := phase_fold false (os w) (n + 8) documentation_list true (snd p2)).
  pose proof (extends_trans X12 X3) as X123.
  destruct (phase_effect "PACKAGE VALIDATION" true false package_checks (snd p3) w3)
    as (w4 & E4 & X4).
  fold package_validation in E4. rewrite (bind_eq _ E4).
  rewrite (ext_os X123), (extends_length X123). fold n.
  cbn [execs core_checks quality_checks documentation_list map length app].
  set (p4 := phase_fold false (os w) (n + 10) package_checks true (snd p3)).
  pose proof (extends_trans X123 X4) as X1234.
  destruct (metadata_checks_effect (snd p4) w4) as (b5 & w5 & E5 & X5).
  rewrite (bind_eq _ E5).
  rewrite (ext_fs X1234), (extends_length X1234). fold n.
  cbn [execs core_checks quality_checks documentation_list package_checks map length app].
  eexists _, w5. split; [reflexivity|].
  pose proof (extends_trans X1234 X5) as X.
  unfold later_events. now rewrite <- !app_assoc in X.
Qed.

Lemma prerequisites_effect c w :
  exists w',
    check_prerequisites (c, w)
      = (prerequisites_pass w, (snd (phase_fold true (os w) (length (trace w)) tools true c), w'))
    /\ extends w w' (execs tools).
Proof.
  destruct (phase_effect "PREREQUISITE CHECKS" false true tools c w) as (w' & E & X).
  fold check_prerequisites in E. rewrite phase_fold_fst in E.
  exists w'. split; [exact E | exact X].
Qed.

(** [prerequisites_pass] is what the prerequisites phase returns. *)
Lemma prerequisites_pass_is_phase_result c w :
  fst (check_prerequisites (c, w)) = prerequisites_pass w.
Proof. destruct (prerequisites_effect c w) as (w' & E & _). now rewrite E. Qed.

(** The state [run_all_checks] reaches after the banner. *)
Lemma banner_effect {A} (k : Method A) c w :
  exists w0,
    (io (print (Colors.MAGENTA ++ Colors.BOLD)%string) ;;
     io (print "🦀 RUST CRATE QUALITY CHECKER 🦀") ;;
     io (print "Comprehensive validation for crates.io release") ;;
     io (print (str_repeat "=" 50 ++ Colors.END)%string) ;;
     k) (c, w) = k (c, w0)
    /\ extends w w0 [].
Proof.
  do 4 rewrite (bind_eq _ (io_print_eq _ _ _)).
  eexists. split; [reflexivity|].
  repeat apply extends_then_print. apply extends_refl.
Qed.

Lemma run_all_checks_abort c w :
  prerequisites_pass w = false ->
  exists w',
    run_all_checks (c, w) = (false, (after_prerequisites w c, w'))
    /\ extends w w' (execs tools).
Proof.
  intros P. unfold run_all_checks.
  destruct (banner_effect
              (ok <- check_prerequisites ;;
               if negb ok then
                 io (print (NL ++ Colors.RED ++ "❌ Prerequisites failed. Cannot continue."
                               ++ Colors.END)%string) ;;
                 ret false
               else
                 checks_passed <- later_phases true ;;
                 t <- io (gets elapsed) ;;
                 io (print (NL ++ Colors.CYAN ++ "⏱️  Total execution time: " ++ t
                               ++ " seconds" ++ Colors.END)%string) ;;
                 print_summary) c w) as (w0 & E0 & X0).
  rewrite E0. clear E0.
  destruct (prerequisites_effect c w0) as (w1 & E1 & X1).
  unfold prerequisites_pass in E1.
  rewrite (ext_os X0), (extends_length X0), Nat.add_0_r in E1.
  fold (prerequisites_pass w) in E1. rewrite P in E1.
  rewrite (bind_eq _ E1). cbn [negb].
  rewrite (bind_eq _ (io_print_eq _ _ _)).
  eexists. split; [reflexivity|].
  apply extends_then_print. exact (extends_trans X0 X1).
Qed.

Lemma run_all_checks_complete c w :
  prerequisites_pass w = true ->
  exists w',
    run_all_checks (c, w) = (ready (at_summary w c), (at_summary w c, w'))
    /\ extends w w' (execs tools ++ later_events)
    /\ ends_with (console w') (closing_message (at_summary w c)).
Proof.
  intros P. unfold run_all_checks.
  destruct (banner_effect
              (ok <- check_prerequisites ;;
               if negb ok then
                 io (print (NL ++ Colors.RED ++ "❌ Prerequisites failed. Cannot continue."
                               ++ Colors.END)%string) ;;
                 ret false
               else
                 checks_passed <- later_phases true ;;
                 t <- io (gets elapsed) ;;
                 io (print (NL ++ Colors.CYAN ++ "⏱️  Total execution time: " ++ t
                               ++ " seconds" ++ Colors.END)%string) ;;
                 print_summary) c w) as (w0 & E0 & X0).
  rewrite E0. clear E0.
  destruct (prerequisites_effect c w0) as (w1 & E1 & X1).
  unfold prerequisites_pass in E1.
  rewrite (ext_os X0), (extends_length X0), Nat.add_0_r in E1.
  fold (prerequisites_pass w) in E1. rewrite P in E1.
  rewrite (bind_eq _ E1). cbn [negb].
  pose proof (extends_trans X0 X1) as X01. cbn [app] in X01.
  destruct (later_phases_effect true (after_prerequisites w c) w1) as (flag & w2 & E2 & X2).
  rewrite (ext_os X01), (ext_fs X01), (extends_length X01) in E2.
  cbn [execs tools map length] in E2.
  fold (at_summary w c) in E2.
  rewrite (bind_eq _ E2).
  pose proof (extends_trans X01 X2) as X012.
  assert (Et : io (gets elapsed) (at_summary w c, w2) = (elapsed w2, (at_summary w c, w2)))
    by reflexivity.
  rewrite (bind_eq _ Et), (bind_eq _ (io_print_eq _ _ _)).
  match goal with |- context [print_summary (_, ?W)] =>
    destruct (print_summary_effect (at_summary w c) W) as (w3 & E3 & X3 & S3)
  end.
  exists w3. split; [exact E3|]. split; [|exact S3].
  apply extends_after_print in X3.
  pose proof (extends_trans X012 X3) as X. now rewrite app_nil_r in X.
Qed.

Lemma print_lines_eq lines : forall w,
  for_each lines (fun line (_ : unit) => print line) tt w
  = (tt, set_console (console w ++ lines) w).
Proof.
  induction lines as [|l ls IH]; intros w.
  - cbn. rewrite app_nil_r. now destruct w.
  - cbn [for_each]. unfold bind at 1. cbn [print modify]. rewrite IH.
    cbn. now rewrite <- app_assoc.
Qed.

Lemma main_help argv w :
  help_requested argv = true ->
  main argv w = ((0, None), set_console (console w ++ usage) w).
Proof.
  intros H. unfold main. rewrite H. unfold bind. now rewrite print_lines_eq.
Qed.

Lemma main_run argv w success checker w' :
  help_requested argv = false ->
  run_all_checks (__init__, w) = (success, (checker, w')) ->
  main argv w = ((if success then 0 else 1, Some checker), w').
Proof.
  intros H E. unfold main. rewrite H. unfold bind, call. now rewrite E.
Qed.

(** ** The counters *)

Lemma len_app {A} (xs ys : list A) : len (xs ++ ys) = len xs + len ys.
Proof. unfold len. rewrite length_app. lia. Qed.

Lemma record_counts critical desc r c :
  total_checks (record critical desc r c) = total_checks c + 1
  /\ (balanced c -> balanced (record critical desc r c)).
Proof.
  unfold record, balanced.
  destruct (passes r), critical; cbn; rewrite ?len_app; cbn; split; lia.
Qed.

Lemma phase_fold_counts critical o checks :
  forall n all_passed c,
    let c' := snd (phase_fold critical o n checks all_passed c) in
    total_checks c' = total_checks c + len checks /\ (balanced c -> balanced c').
Proof.
  induction checks as [|[cmd desc] rest IH]; intros n all_passed c; cbn.
  - split; [lia | auto].
  - destruct (record_counts critical desc (result_of (o n cmd)) c) as [T B].
    match goal with |- context [phase_fold critical o (S n) rest ?a ?c1] =>
      destruct (IH (S n) a c1) as [T' B']
    end.
    cbn zeta in T', B'. split.
    + rewrite T', T. unfold len. cbn [length]. lia.
    + auto.
Qed.

Lemma metadata_fold_counts f files :
  forall n c,
    let c' := metadata_fold f n files c in
    total_checks c' = total_checks c + len files /\ (balanced c -> balanced c').
Proof.
  induction files as [|[filename desc] rest IH]; intros n c; cbn.
  - split; [lia | auto].
  - destruct (f n filename);
      match goal with |- context [metadata_fold f (S n) rest ?c1] =>
        destruct (IH (S n) c1) as [T' B']
      end; cbn zeta in T', B'; (split; [rewrite T'; unfold len; cbn; lia|]);
      intros B; apply B'; revert B; unfold balanced; cbn; rewrite ?len_app; cbn; lia.
Qed.

Lemma later_fold_counts o f n c :
  let c' := later_fold o f n c in
  total_checks c' = total_checks c + len later_events /\ (balanced c -> balanced c').
Proof.
  unfold later_fold. cbn zeta.
  set (p1 := phase_fold true o n core_checks true c).
  set (p2 := phase_fold true o (n + 5) quality_checks true (snd p1)).
  set (p3 := phase_fold false o (n + 8) documentation_list true (snd p2)).
  set (p4 := phase_fold false o (n + 10) package_checks true (snd p3)).
  destruct (phase_fold_counts true o core_checks n true c) as [T1 B1].
  destruct (phase_fold_counts true o quality_checks (n + 5) true (snd p1)) as [T2 B2].
  destruct (phase_fold_counts false o documentation_list (n + 8) true (snd p2)) as [T3 B3].
  destruct (phase_fold_counts false o package_checks (n + 10) true (snd p3)) as [T4 B4].
  destruct (metadata_fold_counts f required_files (n + 12) (snd p4)) as [T5 B5].
  cbn zeta in *. fold p1 in T1, B1. fold p2 in T2, B2. fold p3 in T3, B3. fold p4 in T4, B4.
  split; [|tauto].
  rewrite T5, T4, T3, T2, T1. vm_compute len. lia.
Qed.

(** ** The closing messages are told apart by their last line *)

Lemma last_app_nonempty {A} (pre msg : list A) d :
  msg <> [] -> last (pre ++ msg) d = last msg d.
Proof.
  intros N. induction pre as [|a pre IH]; [reflexivity|].
  cbn [app]. change (last (a :: pre ++ msg) d)
    with (match pre ++ msg with [] => a | _ :: _ => last (pre ++ msg) d end).
  destruct (pre ++ msg) eqn:E; [|exact IH].
  apply app_eq_nil in E. now destruct E.
Qed.

Lemma ends_with_last (xs msg : list string) :
  msg <> [] -> ends_with xs msg -> last xs ""%string = last msg ""%string.
Proof. intros N [pre ->]. now apply last_app_nonempty. Qed.

Lemma distinct_endings (xs m1 m2 : list string) :
  m1 <> [] -> m2 <> [] ->
  String.eqb (last m1 ""%string) (last m2 ""%string) = false ->
  ends_with xs m1 -> ~ ends_with xs m2.
Proof.
  intros N1 N2 D E1 E2.
  apply (ends_with_last N1) in E1. apply (ends_with_last N2) in E2.
  rewrite E1 in E2. rewrite E2, String.eqb_refl in D. discriminate.
Qed.




Lemma truthy_false {A} (xs : list A) : truthy xs = false <-> xs = [].
Proof. destruct xs; cbn; split; congruence. Qed.


Lemma ready_iff c : ready c = true <-> failed_checks c = [] /\ warnings c = [].
Proof.
  unfold ready. rewrite andb_true_iff, !negb_true_iff, !truthy_false. tauto.
Qed.

(** A completed run of [main]: the summary ran on [at_summary w __init__]. *)
Lemma main_complete argv w :
  help_requested argv = false ->
  prerequisites_pass w = true ->
  let checker := at_summary w __init__ in
  exists w',
    main argv w = ((if ready checker then 0 else 1, Some checker), w')
    /\ extends w w' (execs tools ++ later_events)
    /\ ends_with (console w') (closing_message checker).
Proof.
  intros H P checker.
  destruct (run_all_checks_complete __init__ w P) as (w' & E & X & S).
  exists w'. split; [exact (@main_run argv w _ _ _ H E) | now split].
Qed.

Lemma main_abort argv w :
  help_requested argv = false ->
  prerequisites_pass w = false ->
  exists w',
    main argv w = ((1, Some (after_prerequisites w __init__)), w')
    /\ extends w w' (execs tools).
Proof.
  intros H P.
  destruct (run_all_checks_abort __init__ w P) as (w' & E & X).
  exists w'. split; [exact (@main_run argv w _ _ _ H E) | exact X].
Qed.

(** * Properties of the check runner *)



(** The verdict table on three runs: no failure and no warning; two
    warnings; failures with warnings. *)
Example verdict_ready :
  fst (main ["cratecheck.py"%string] healthy) = (0, Some (mkChecker 18 18 [] [])).
Proof. vm_compute. reflexivity. Qed.

Example verdict_warnings :
  fst (main ["cratecheck.py"%string] manifest_only)
  = (1, Some (mkChecker 16 18 [] ["README file missing"; "License file missing"]%string)).
Proof. vm_compute. reflexivity. Qed.

Example verdict_failures :
  fst (main ["cratecheck.py"%string] troubled)
  = (1, Some (mkChecker 14 18
                ["All tests - FAILED"; "All targets tests - FAILED"]%string
                ["Basic documentation - TIMEOUT";
                 "Documentation with all features - TIMEOUT"]%string)).
Proof. vm_compute. reflexivity. Qed.

(** C9.  On a run whose prerequisites all succeed, the booleans the five
    later phases return are folded into the local [checks_passed] and never
    read: the exit status is 0 exactly when both recorded lists are empty
    when the summary runs, whatever [checks_passed] is. *)
Theorem phase_results_do_not_decide argv w :
  help_requested argv = false ->
  prerequisites_pass w = true ->
  exists checks_passed checker w1 w2 code w',
    extends w w1 (execs tools)
    /\ later_phases true (after_prerequisites w __init__, w1) = (checks_passed, (checker, w2))
    /\ main argv w = ((code, Some checker), w')
    /\ (code = 0 <-> failed_checks checker = [] /\ warnings checker = []).
Proof.
  intros H P.
  destruct (main_complete argv w H P) as (w' & E & _ & _).
  destruct (prerequisites_effect __init__ w) as (w1 & _ & X1).
  destruct (later_phases_effect true (after_prerequisites w __init__) w1)
    as (flag & w2 & E2 & _).
  rewrite (ext_os X1), (ext_fs X1), (extends_length X1) in E2.
  cbn [execs tools map length] in E2. fold (at_summary w __init__) in E2.
  eexists _, (at_summary w __init__), w1, w2, _, w'.
  split; [exact X1|]. split; [exact E2|]. split; [exact E|].
  rewrite <- ready_iff. destruct (ready (at_summary w __init__)); split; congruence.
Qed.

Lemma phase_results_do_not_decide_witness :
  exists checks_passed checker w1 w2 code w',
    extends manifest_only w1 (execs tools)
    /\ later_phases true (after_prerequisites manifest_only __init__, w1)
       = (checks_passed, (checker, w2))
    /\ main ["cratecheck.py"%string] manifest_only = ((code, Some checker), w')
    /\ (code = 0 <-> failed_checks checker = [] /\ warnings checker = []).
Proof.
  apply (phase_results_do_not_decide ["cratecheck.py"%string] manifest_only).
  - reflexivity.
  - vm_compute. reflexivity.
Defined.

(** All five phases report success, and the run is still not ready. *)
Example flag_true_exit_one :
  checks_passed_flag manifest_only = true
  /\ fst (fst (main ["cratecheck.py"%string] manifest_only)) = 1.
Proof. split; vm_compute; reflexivity. Qed.

Example flag_false_exit_one :
  checks_passed_flag no_manifest = false
  /\ fst (fst (main ["cratecheck.py"%string] no_manifest)) = 1.
Proof. split; vm_compute; reflexivity. Qed.

Lemma tools_not_later e : In e later_events -> ~ In e (execs tools).
Proof.
  intros L T. cbn in T. cbn in L.
  repeat (destruct T as [T|T]; [subst e; repeat (destruct L as [L|L]; [discriminate|]); exact L|]).
  exact T.
Qed.

(** C5.  When a prerequisite check fails, the run makes the three
    prerequisite invocations and no other: no command of the core-build,
    code-quality, documentation or package phase is executed and no
    metadata file is probed; the exit status is 1. *)
Theorem failed_prerequisite_aborts argv w :
  help_requested argv = false ->
  prerequisites_pass w = false ->
  exists checker w',
    main argv w = ((1, Some checker), w')
    /\ trace w' = trace w ++ execs tools
    /\ (forall e, In e later_events -> ~ In e (execs tools)).
Proof.
  intros H P.
  destruct (main_abort argv w H P) as (w' & E & X).
  exists (after_prerequisites w __init__), w'.
  split; [exact E|]. split; [exact (ext_trace X) | exact tools_not_later].
Qed.

Lemma failed_prerequisite_aborts_witness :
  exists checker w',
    main ["cratecheck.py"%string] no_git = ((1, Some checker), w')
    /\ trace w' = trace no_git ++ execs tools
    /\ (forall e, In e later_events -> ~ In e (execs tools)).
Proof.
  apply (failed_prerequisite_aborts ["cratecheck.py"%string] no_git).
  - reflexivity.
  - vm_compute. reflexivity.
Defined.

Lemma after_prerequisites_eq w c :
  let n := length (trace w) in
  after_prerequisites w c
  = record true "Git availability" (result_of (os w (S (S n)) ["git"; "--version"]%string))
      (record true "Rust compiler availability"
         (result_of (os w (S n) ["rustc"; "--version"]%string))
         (record true "Cargo availability"
            (result_of (os w n ["cargo"; "--version"]%string)) c)).
Proof. reflexivity. Qed.

(** C10.  The prerequisites phase runs all three checks, whatever the
    earlier ones answer: on a fresh controller it always makes the three
    invocations in order and leaves [total_checks] at 3; every tool whose
    check fails has its failure label in [failed_checks]; nothing goes to
    [warnings]; and when [main] aborts on the prerequisites, this is the
    controller it ends with. *)
Theorem prerequisites_do_not_short_circuit w :
  exists checker w',
    check_prerequisites (__init__, w) = (prerequisites_pass w, (checker, w'))
    /\ trace w' = trace w ++ [Exec ["cargo"; "--version"]%string;
                              Exec ["rustc"; "--version"]%string;
                              Exec ["git"; "--version"]%string]
    /\ total_checks checker = 3
    /\ (forall i cmd desc,
          nth_error tools i = Some (cmd, desc) ->
          passes (result_of (os w (length (trace w) + i) cmd)) = false ->
          In (failure_label desc (result_of (os w (length (trace w) + i) cmd)))
             (failed_checks checker))
    /\ warnings checker = []
    /\ (forall argv,
          help_requested argv = false ->
          prerequisites_pass w = false ->
          exists w'', main argv w = ((1, Some checker), w'')).
Proof.
  destruct (prerequisites_effect __init__ w) as (w' & E & X).
  exists (after_prerequisites w __init__), w'.
  split; [exact E|]. split; [exact (ext_trace X)|].
  rewrite after_prerequisites_eq. cbn zeta.
  set (n := length (trace w)).
  set (r1 := result_of (os w n _)). set (r2 := result_of (os w (S n) _)).
  set (r3 := result_of (os w (S (S n)) _)).
  split; [|split; [|split]].
  - unfold record. destruct (passes r1), (passes r2), (passes r3); reflexivity.
  - intros i cmd desc T F.
    destruct i as [|[|[|i]]]; cbn in T;
      [| | |destruct i; discriminate]; injection T as <- <-.
    + rewrite Nat.add_0_r in *. fold r1 in F |- *. unfold record. rewrite F.
      destruct (passes r2), (passes r3); cbn; rewrite ?in_app_iff; cbn; tauto.
    + rewrite Nat.add_1_r in *. fold r2 in F |- *. unfold record. rewrite F.
      destruct (passes r1), (passes r3); cbn; rewrite ?in_app_iff; cbn; tauto.
    + replace (n + 2)%nat with (S (S n)) in * by lia. fold r3 in F |- *.
      unfold record. rewrite F.
      destruct (passes r1), (passes r2); cbn; rewrite ?in_app_iff; cbn; tauto.
  - unfold record. destruct (passes r1), (passes r2), (passes r3); reflexivity.
  - intros argv H P. destruct (main_abort argv w H P) as (w'' & E'' & _).
    exists w''. exact E''.
Qed.

Lemma prerequisites_do_not_short_circuit_witness :
  fst (check_prerequisites (__init__, no_rust)) = false
  /\ In "Cargo availability - ERROR: [Errno 2] No such file or directory"%string
        (failed_checks (fst (snd (check_prerequisites (__init__, no_rust)))))
  /\ exists w'',
       main ["cratecheck.py"%string] no_rust
       = ((1, Some (fst (snd (check_prerequisites (__init__, no_rust))))), w'').
Proof.
  destruct (prerequisites_do_not_short_circuit no_rust)
    as (checker & w' & E & _ & _ & I & _ & M).
  rewrite E. cbn [fst snd]. split; [|split].
  - vm_compute. reflexivity.
  - apply (I 0%nat ["cargo"; "--version"]%string "Cargo availability"%string).
    + reflexivity.
    + vm_compute. reflexivity.
  - apply (M ["cratecheck.py"%string]).
    + reflexivity.
    + vm_compute. reflexivity.
Defined.

(** The first two tools are missing: the third is still run. *)
Example prerequisites_all_run :
  let r := check_prerequisites (__init__, no_rust) in
  fst r = false
  /\ fst (snd r)
     = mkChecker 1 3
         ["Cargo availability - ERROR: [Errno 2] No such file or directory";
          "Rust compiler availability - ERROR: [Errno 2] No such file or directory"]%string
         []
  /\ trace (snd (snd r))
     = [Exec ["cargo"; "--version"]; Exec ["rustc"; "--version"]; Exec ["git"; "--version"]]%string.
Proof. vm_compute. repeat split. Qed.

Lemma run_command_counts cmd desc critical c w :
  let c' := fst (snd (run_command cmd desc critical (c, w))) in
  total_checks c' = total_checks c + 1 /\ (balanced c -> balanced c').
Proof.
  destruct (run_command_effect cmd desc critical c w) as (w' & E & _).
  rewrite E. cbn [fst snd]. apply record_counts.
Qed.

Lemma metadata_body_counts file all_passed c w :
  let c' := fst (snd (metadata_body file all_passed (c, w))) in
  total_checks c' = total_checks c + 1 /\ (balanced c -> balanced c').
Proof.
  destruct file as [filename desc].
  destruct (metadata_body_effect filename desc all_passed c w) as (b & w' & E & _).
  rewrite E. cbn [fst snd].
  apply (metadata_fold_counts (fs w) [(filename, desc)] (length (trace w)) c).
Qed.

Lemma balanced_init : balanced __init__.
Proof. reflexivity. Qed.

(** C2.  Every recorded check keeps the counters in balance: a fresh
    controller is in balance; one command execution, whatever its
    outcome, and one metadata file check each add
    exactly 1 to [total_checks] and keep
    [total_checks = passed_checks + len failed_checks + len warnings]; and
    when [main] has created a controller, at the end of the run the
    controller is in balance and passed plus the two list lengths equals
    the number of check invocations the run made. *)
Theorem counters_balance :
  balanced __init__
  /\ (forall cmd desc critical c w,
      let c' := fst (snd (run_command cmd desc critical (c, w))) in
      total_checks c' = total_checks c + 1 /\ (balanced c -> balanced c'))
  /\ (forall file all_passed c w,
         let c' := fst (snd (metadata_body file all_passed (c, w))) in
         total_checks c' = total_checks c + 1 /\ (balanced c -> balanced c'))
  /\ (forall argv w checker,
         snd (fst (main argv w)) = Some checker ->
         balanced checker
         /\ passed_checks checker + len (failed_checks checker) + len (warnings checker)
            = Z.of_nat (length (trace (snd (main argv w))) - length (trace w))).
Proof.
  split; [exact balanced_init|].
  split; [exact run_command_counts|]. split; [exact metadata_body_counts|].
  intros argv w checker.
  destruct (help_requested argv) eqn:H.
  - rewrite (main_help argv w H). discriminate.
  - destruct (prerequisites_pass w) eqn:P.
    + destruct (main_complete argv w H P) as (w' & E & X & _).
      rewrite E. cbn [fst snd]. intros [= <-].
      unfold at_summary.
      destruct (later_fold_counts (os w) (fs w) (length (trace w) + 3)
                  (after_prerequisites w __init__)) as [T B].
      destruct (phase_fold_counts true (os w) tools (length (trace w)) true __init__)
        as [T0 B0].
      cbn zeta in T, B, T0, B0. fold (after_prerequisites w __init__) in T0, B0.
      specialize (B (B0 balanced_init)). split; [exact B|].
      rewrite (extends_length X). unfold balanced in B. rewrite <- B, T, T0.
      replace (length (trace w) + length (execs tools ++ later_events) - length (trace w))%nat
        with (length (execs tools ++ later_events)) by lia.
      vm_compute. reflexivity.
    + destruct (main_abort argv w H P) as (w' & E & X).
      rewrite E. cbn [fst snd]. intros [= <-].
      destruct (phase_fold_counts true (os w) tools (length (trace w)) true __init__)
        as [T0 B0].
      cbn zeta in T0, B0. fold (after_prerequisites w __init__) in T0, B0.
      specialize (B0 balanced_init). split; [exact B0|].
      rewrite (extends_length X). unfold balanced in B0. rewrite <- B0, T0.
      replace (length (trace w) + length (execs tools) - length (trace w))%nat
        with (length (execs tools)) by lia.
      vm_compute. reflexivity.
Qed.

Lemma counters_balance_witness :
  balanced (fst (snd (run_command ["cargo"; "check"]%string "Basic compilation check"
                        true (__init__, silent_failure))))
  /\ balanced (fst (snd (metadata_body ("README.md", "README file")%string true
                           (__init__, manifest_only))))
  /\ (balanced troubled_checker
      /\ passed_checks troubled_checker + len (failed_checks troubled_checker)
           + len (warnings troubled_checker)
         = Z.of_nat (length (trace (snd (main ["cratecheck.py"%string] troubled)))
                     - length (trace troubled))).
Proof.
  destruct counters_balance as (_ & R & M & W).
  split; [|split].
  - apply (R ["cargo"; "check"]%string "Basic compilation check"%string true
             __init__ silent_failure).
    reflexivity.
  - apply (M ("README.md", "README file")%string true __init__ manifest_only).
    reflexivity.
  - apply (W ["cratecheck.py"%string] troubled troubled_checker).
    vm_compute. reflexivity.
Defined.

(** ** The metadata phase *)

Lemma metadata_fold_failed f files :
  forall n c, failed_checks (metadata_fold f n files c) = failed_checks c.
Proof.
  induction files as [|[filename desc] rest IH]; intros n c; cbn.
  - reflexivity.
  - destruct (f n filename); now rewrite IH.
Qed.

Lemma metadata_fold_records f files :
  forall n c,
    let c' := metadata_fold f n files c in
    warnings c' = warnings c ++ missing_labels f n files
    /\ passed_checks c' + len (missing_labels f n files) = passed_checks c + len files.
Proof.
  induction files as [|[filename desc] rest IH]; intros n c;
    cbn [metadata_fold missing_labels].
  - cbn. rewrite app_nil_r. split; [reflexivity | lia].
  - destruct (f n filename);
      match goal with |- context [metadata_fold f (S n) rest ?c1] =>
        destruct (IH (S n) c1) as [W P]
      end; cbn zeta in W, P; cbn [app]; split.
    + rewrite W. reflexivity.
    + cbn [incr_total incr_passed passed_checks] in P.
      unfold len in *. cbn [length]. lia.
    + rewrite W. cbn. now rewrite <- app_assoc.
    + cbn [incr_total append_warning passed_checks] in P.
      unfold len in *. cbn [length]. lia.
Qed.

(** What the metadata phase returns and records, from its effect and
    its result. *)
Lemma metadata_checks_records c w :
  exists w',
    metadata_checks (c, w)
    = (fs w (length (trace w)) "Cargo.toml"%string,
       (metadata_fold (fs w) (length (trace w)) required_files c, w'))
    /\ extends w w' (probes required_files).
Proof.
  destruct (metadata_checks_effect c w) as (b & w' & E & X).
  pose proof (metadata_checks_result c w) as R. rewrite E in R. cbn [fst] in R. subst b.
  exists w'. now split.
Qed.

(** C3.  In a directory without [Cargo.toml] the metadata phase returns
    [False], and yet the manifest is recorded among the warnings:
    [failed_checks] is left exactly as it was, and [warnings] gains
    [Cargo manifest missing], followed by the labels of a missing README
    and a missing license. *)
Theorem missing_manifest_goes_to_warnings c w :
  fs w (length (trace w)) "Cargo.toml" = false ->
  exists c' w',
    metadata_checks (c, w) = (false, (c', w'))
    /\ failed_checks c' = failed_checks c
    /\ warnings c'
       = warnings c
         ++ ["Cargo manifest missing"%string]
         ++ (if fs w (S (length (trace w))) "README.md"
             then [] else ["README file missing"%string])
         ++ (if fs w (S (S (length (trace w)))) "LICENSE"
             then [] else ["License file missing"%string])
    /\ total_checks c' = total_checks c + 3.
Proof.
  intros M.
  destruct (metadata_checks_records c w) as (w' & E & _). rewrite M in E.
  eexists _, w'. split; [exact E|].
  split; [apply metadata_fold_failed|].
  destruct (metadata_fold_records (fs w) required_files (length (trace w)) c) as [W _].
  destruct (metadata_fold_counts (fs w) required_files (length (trace w)) c) as [T _].
  cbn zeta in W, T. split; [|exact T].
  rewrite W. cbn [missing_labels required_files]. rewrite M, app_nil_r. reflexivity.
Qed.

Lemma missing_manifest_goes_to_warnings_witness :
  exists c' w',
    metadata_checks (__init__, no_manifest) = (false, (c', w'))
    /\ failed_checks c' = failed_checks __init__
    /\ warnings c'
       = warnings __init__
         ++ ["Cargo manifest missing"%string]
         ++ (if fs no_manifest (S (length (trace no_manifest))) "README.md"
             then [] else ["README file missing"%string])
         ++ (if fs no_manifest (S (S (length (trace no_manifest)))) "LICENSE"
             then [] else ["License file missing"%string])
    /\ total_checks c' = total_checks __init__ + 3.
Proof.
  apply (missing_manifest_goes_to_warnings __init__ no_manifest). reflexivity.
Defined.

(** With nothing else wrong, a missing manifest ends the run with no
    critical failure on record and the "warnings must be fixed" message. *)
Example missing_manifest_run :
  fst (main ["cratecheck.py"%string] no_manifest)
  = (1, Some (mkChecker 17 18 [] ["Cargo manifest missing"%string]))
  /\ last (console (snd (main ["cratecheck.py"%string] no_manifest))) ""%string
     = last warnings_message ""%string.
Proof. split; vm_compute; reflexivity. Qed.

(** C7.  With [Cargo.toml] present and neither [README.md] nor [LICENSE],
    the metadata phase appends exactly the two warnings, leaves
    [failed_checks] as it was, adds 3 to [total_checks] and 1 to
    [passed_checks]. *)
Theorem manifest_only_metadata c w :
  fs w (length (trace w)) "Cargo.toml" = true ->
  fs w (S (length (trace w))) "README.md" = false ->
  fs w (S (S (length (trace w)))) "LICENSE" = false ->
  exists c' w',
    metadata_checks (c, w) = (true, (c', w'))
    /\ warnings c' = warnings c ++ ["README file missing"; "License file missing"]%string
    /\ failed_checks c' = failed_checks c
    /\ total_checks c' = total_checks c + 3
    /\ passed_checks c' = passed_checks c + 1
    /\ trace w' = trace w ++ [Probe "Cargo.toml"; Probe "README.md"; Probe "LICENSE"].
Proof.
  intros M R L.
  destruct (metadata_checks_records c w) as (w' & E & X).
  cbn [metadata_fold required_files] in E. rewrite M, R, L in E. cbn in E.
  eexists _, w'. split; [exact E|]. cbn.
  rewrite <- app_assoc. repeat split; try lia. exact (ext_trace X).
Qed.

Lemma manifest_only_metadata_witness :
  exists c' w',
    metadata_checks (__init__, manifest_only) = (true, (c', w'))
    /\ warnings c' = warnings __init__ ++ ["README file missing"; "License file missing"]%string
    /\ failed_checks c' = failed_checks __init__
    /\ total_checks c' = total_checks __init__ + 3
    /\ passed_checks c' = passed_checks __init__ + 1
    /\ trace w' = trace manifest_only ++ [Probe "Cargo.toml"; Probe "README.md"; Probe "LICENSE"].
Proof.
  apply (manifest_only_metadata __init__ manifest_only); reflexivity.
Defined.

(** ** The help flag *)

Lemma help_requested_iff argv :
  help_requested argv = true
  <-> nth_error argv 1 = Some "-h"%string \/ nth_error argv 1 = Some "--help"%string.
Proof.
  unfold help_requested, str_in.
  destruct argv as [|a0 [|a1 rest]]; cbn [nth_error nth existsb].
  - cbn. split; [discriminate | intros [H|H]; discriminate].
  - cbn. split; [discriminate | intros [H|H]; discriminate].
  - replace (1 <? len (a0 :: a1 :: rest)) with true
      by (symmetry; apply Z.ltb_lt; unfold len; cbn [length]; lia).
    cbn [andb]. rewrite !orb_true_iff, !String.eqb_eq.
    split.
    + intros [->|[->|H]]; [now left | now right | discriminate].
    + intros [[= ->]|[= ->]]; [now left | right; now left].
Qed.

(** C8.  With [-h] or [--help] as the first argument, [main] prints the
    eight lines of the usage text and nothing else, makes no check
    invocation, creates no controller (so no counter is ever incremented),
    and the exit status is 0. *)
Theorem help_runs_no_check argv w :
  nth_error argv 1 = Some "-h"%string \/ nth_error argv 1 = Some "--help"%string ->
  exists w',
    main argv w = ((0, None), w')
    /\ console w'
       = console w
         ++ [ "CrateCheck - Rust Crate Quality Validator";
              "Usage: python cratecheck.py";
              String "010" "Runs comprehensive checks for crates.io release readiness:";
              "• Compilation and testing";
              "• Code quality (fmt, clippy)";
              "• Documentation generation";
              "• Package validation";
              "• Metadata verification" ]%string
    /\ trace w' = trace w
    /\ children w' = children w.
Proof.
  intros H. apply help_requested_iff in H.
  rewrite (main_help argv w H). eexists. split; [reflexivity|]. now cbn.
Qed.

Lemma help_runs_no_check_witness :
  exists w',
    main ["cratecheck.py"; "--help"]%string troubled = ((0, None), w')
    /\ console w'
       = console troubled
         ++ [ "CrateCheck - Rust Crate Quality Validator";
              "Usage: python cratecheck.py";
              String "010" "Runs comprehensive checks for crates.io release readiness:";
              "• Compilation and testing";
              "• Code quality (fmt, clippy)";
              "• Documentation generation";
              "• Package validation";
              "• Metadata verification" ]%string
    /\ trace w' = trace troubled
    /\ children w' = children troubled.
Proof.
  apply (help_runs_no_check ["cratecheck.py"; "--help"]%string troubled).
  right. reflexivity.
Defined.

(** Any other first argument is ignored and the checks run. *)
Example other_flag_runs_checks :
  help_requested ["cratecheck.py"; "-help"]%string = false
  /\ fst (main ["cratecheck.py"; "-help"]%string healthy) = (0, Some (mkChecker 18 18 [] [])).
Proof. split; vm_compute; reflexivity. Qed.

(** ** Failed and timed-out commands *)

Lemma exited_result after rc out err :
  Qle_bool after command_timeout = true ->
  result_of (Terminates after rc out err) = Completed rc out err.
Proof. intros T. cbn. now rewrite T. Qed.

(** C4, as the code has it.  A command that exits in time with a non-zero
    status is classified as a failure, its label [description - FAILED]
    goes to the list the [critical] flag selects ([total_checks] goes up by
    1, [passed_checks] and the other list stay), and the text returned is
    the captured standard error as it is, the empty string included. *)
Theorem nonzero_exit_returns_stderr cmd desc critical c w after rc out err :
  os w (length (trace w)) cmd = Terminates after rc out err ->
  Qle_bool after command_timeout = true ->
  rc <> 0 ->
  exists w',
    run_command cmd desc critical (c, w)
    = ((false, err),
       ((if critical
         then append_failed (desc ++ " - FAILED")
         else append_warning (desc ++ " - FAILED")) (incr_total c),
        w'))
    /\ (if critical
        then append_failed (desc ++ " - FAILED")
        else append_warning (desc ++ " - FAILED")) (incr_total c)
       = mkChecker (passed_checks c) (total_checks c + 1)
           (if critical then failed_checks c ++ [(desc ++ " - FAILED")%string]
            else failed_checks c)
           (if critical then warnings c
            else warnings c ++ [(desc ++ " - FAILED")%string]).
Proof.
  intros B T N.
  destruct (run_command_effect cmd desc critical c w) as (w' & E & _).
  cbn zeta in E. rewrite B, (@exited_result after rc out err T) in E.
  unfold record in E. cbn [passes returned_text failure_label] in E.
  apply Z.eqb_neq in N. rewrite N in E.
  exists w'. split; [rewrite E|]; now destruct critical.
Qed.

Lemma nonzero_exit_returns_stderr_witness :
  exists w',
    run_command ["cargo"; "test"]%string "All tests" true (__init__, troubled)
    = ((false, "test failed"%string),
       (append_failed "All tests - FAILED" (incr_total __init__), w'))
    /\ append_failed "All tests - FAILED" (incr_total __init__)
       = mkChecker 0 (0 + 1) ([] ++ ["All tests - FAILED"%string]) [].
Proof.
  apply (nonzero_exit_returns_stderr ["cargo"; "test"]%string "All tests" true __init__
           troubled (after := 2%Q) (rc := 101) (out := ""%string)).
  - reflexivity.
  - reflexivity.
  - discriminate.
Defined.

(** C4, as stated, fails: no non-empty generic message stands in for an
    empty standard error.  [cargo check] exiting with status 1 and an empty
    standard error returns the empty string. *)
Lemma empty_stderr_returned_as_is :
  ~ (exists generic : string,
        nonempty generic = true
        /\ forall cmd desc critical c w after rc out err,
             os w (length (trace w)) cmd = Terminates after rc out err ->
             Qle_bool after command_timeout = true ->
             rc <> 0 ->
             snd (fst (run_command cmd desc critical (c, w)))
             = if nonempty err then err else generic).
Proof.
  intros (generic & G & H).
  specialize (H ["cargo"; "check"]%string "Basic compilation check"%string true
                __init__ silent_failure 1%Q 1 ""%string ""%string
                eq_refl eq_refl ltac:(discriminate)).
  vm_compute in H. subst generic. discriminate.
Qed.

Lemma last_char_app s t :
  t <> EmptyString -> last_char (s ++ t)%string = last_char t.
Proof.
  intros N. induction s as [|c s IH]; [reflexivity|].
  change (String c s ++ t)%string with (String c (s ++ t)%string).
  cbn [last_char]. destruct (s ++ t)%string eqn:E; [|exact IH].
  destruct s; [cbn in E; contradiction | discriminate].
Qed.

Lemma timeout_label_distinct desc desc' :
  (desc ++ " - TIMEOUT")%string <> (desc' ++ " - FAILED")%string.
Proof.
  intros E. apply (f_equal last_char) in E.
  rewrite !last_char_app in E by discriminate. discriminate.
Qed.

Lemma timed_out_result b :
  exceeds_timeout b = true -> result_of b = TimeoutExpired /\ started b = true.
Proof.
  destruct b as [msg|after rc out err|after msg|]; cbn; try discriminate; auto;
    destruct (Qle_bool after command_timeout); cbn; try discriminate; auto.
Qed.

(** X19.  A command that runs past the 300-second limit makes
    [run_command] return [(False, "Command timed out")]: [total_checks]
    goes up by 1, [passed_checks] stays, and the label
    [description - TIMEOUT] is appended to [failed_checks] when [critical]
    is set, to [warnings] otherwise, the other list staying as it was.  No
    description gives that label as its [FAILED] label. *)
Theorem timeout_is_recorded cmd desc critical c w :
  exceeds_timeout (os w (length (trace w)) cmd) = true ->
  exists w',
    run_command cmd desc critical (c, w)
    = ((false, "Command timed out"%string),
       (mkChecker (passed_checks c) (total_checks c + 1)
          (if critical then failed_checks c ++ [(desc ++ " - TIMEOUT")%string]
           else failed_checks c)
          (if critical then warnings c
           else warnings c ++ [(desc ++ " - TIMEOUT")%string]),
        w'))
    /\ (forall desc', (desc ++ " - TIMEOUT")%string <> (desc' ++ " - FAILED")%string)
    /\ trace w' = trace w ++ [Exec cmd]
    /\ command_timeout == 300.
Proof.
  intros T. apply timed_out_result in T. destruct T as [R S].
  destruct (run_command_effect cmd desc critical c w) as (w' & E & X & _).
  cbn zeta in E. rewrite R in E.
  unfold record in E. cbn [passes returned_text failure_label] in E.
  exists w'. split; [rewrite E; now destruct critical|].
  split; [intros desc'; apply timeout_label_distinct|].
  split; [exact (ext_trace X) | reflexivity].
Qed.

Lemma timeout_is_recorded_witness :
  exists w',
    run_command ["cargo"; "doc"; "--no-deps"]%string "Basic documentation" false
      (__init__, troubled)
    = ((false, "Command timed out"%string),
       (mkChecker 0 (0 + 1) [] ([] ++ ["Basic documentation - TIMEOUT"%string]), w'))
    /\ (forall desc',
          ("Basic documentation" ++ " - TIMEOUT")%string <> (desc' ++ " - FAILED")%string)
    /\ trace w' = trace troubled ++ [Exec ["cargo"; "doc"; "--no-deps"]%string]
    /\ command_timeout == 300.
Proof.
  apply (timeout_is_recorded ["cargo"; "doc"; "--no-deps"]%string "Basic documentation"
           false __init__ troubled).
  reflexivity.
Defined.

(** A command that stops after 301 seconds is past the limit; one that
    stops after 300 is not. *)
Example limit_is_300_seconds :
  exceeds_timeout (Terminates 301 0 "" "") = true
  /\ exceeds_timeout (Terminates 300 0 "" "") = false.
Proof. split; reflexivity. Qed.

(** * Further properties of the check runner *)

(** ** One command execution *)

(** X1.  A command that exits with status 0 within the time limit makes
    [run_command] return [(True, stdout)]: [total_checks] and
    [passed_checks] each go up by 1 and neither list changes, whatever the
    [critical] flag is. *)
Theorem zero_exit_passes cmd desc critical c w after out err :
  os w (length (trace w)) cmd = Terminates after 0 out err ->
  Qle_bool after command_timeout = true ->
  exists w',
    run_command cmd desc critical (c, w)
    = ((true, out),
       (mkChecker (passed_checks c + 1) (total_checks c + 1) (failed_checks c) (warnings c),
        w'))
    /\ trace w' = trace w ++ [Exec cmd].
Proof.
  intros B T.
  destruct (run_command_effect cmd desc critical c w) as (w' & E & X & _).
  cbn zeta in E. rewrite B, (@exited_result after 0 out err T) in E.
  exists w'. split; [exact E | exact (ext_trace X)].
Qed.

Lemma zero_exit_passes_witness :
  exists w',
    run_command ["cargo"; "--version"]%string "Cargo availability" true (__init__, healthy)
    = ((true, "ok"%string), (mkChecker (0 + 1) (0 + 1) [] [], w'))
    /\ trace w' = trace healthy ++ [Exec ["cargo"; "--version"]%string].
Proof.
  apply (zero_exit_passes ["cargo"; "--version"]%string "Cargo availability" true
           __init__ healthy (after := 1%Q) (out := "ok"%string) (err := ""%string)).
  - reflexivity.
  - reflexivity.
Defined.

Lemma subprocess_run_nospawn cmd timeout w msg :
  os w (length (trace w)) cmd = NoSpawn msg ->
  subprocess_run cmd timeout w = (Raised msg, set_trace (trace w ++ [Exec cmd]) w).
Proof.
  intros B. destruct w as [con tr ch o f el]. cbn in B.
  cbv [subprocess_run bind gets log modify ret set_trace trace os console children fs elapsed].
  now rewrite B.
Qed.

(** X2.  When the program cannot be started, [run_command] returns
    [(False, str(e))]: [total_checks] goes up by 1, [passed_checks] stays,
    the label [description - ERROR: str(e)] is appended to [failed_checks]
    when [critical] is set, to [warnings] otherwise, the other list staying
    as it was; and the set of running children is what it was. *)
Theorem spawn_error_is_recorded cmd desc critical c w msg :
  os w (length (trace w)) cmd = NoSpawn msg ->
  exists w',
    run_command cmd desc critical (c, w)
    = ((false, msg),
       (mkChecker (passed_checks c) (total_checks c + 1)
          (if critical then failed_checks c ++ [(desc ++ " - ERROR: " ++ msg)%string]
           else failed_checks c)
          (if critical then warnings c
           else warnings c ++ [(desc ++ " - ERROR: " ++ msg)%string]),
        w'))
    /\ trace w' = trace w ++ [Exec cmd]
    /\ children w' = children w.
Proof.
  intros B. unfold run_command.
  rewrite (bind_eq _ (self_set_eq _ _ _)), (bind_eq _ (io_print_eq _ _ _)).
  set (w1 := set_console _ w).
  assert (E : io (subprocess_run cmd command_timeout) (incr_total c, w1)
              = (Raised msg, (incr_total c, set_trace (trace w1 ++ [Exec cmd]) w1))).
  { unfold io. cbn [snd fst]. now rewrite (subprocess_run_nospawn cmd command_timeout w1 B). }
  rewrite (bind_eq _ E), (bind_eq _ (io_print_eq _ _ _)).
  destruct critical; rewrite (bind_eq _ (self_set_eq _ _ _));
    (eexists; split; [reflexivity|]; now cbn).
Qed.

Lemma spawn_error_is_recorded_witness :
  exists w',
    run_command ["git"; "--version"]%string "Git availability" true (__init__, no_git)
    = ((false, "[Errno 2] No such file or directory: 'git'"%string),
       (mkChecker 0 (0 + 1)
          ([] ++ ["Git availability - ERROR: [Errno 2] No such file or directory: 'git'"%string])
          [],
        w'))
    /\ trace w' = trace no_git ++ [Exec ["git"; "--version"]%string]
    /\ children w' = children no_git.
Proof.
  apply (spawn_error_is_recorded ["git"; "--version"]%string "Git availability" true
           __init__ no_git).
  reflexivity.
Defined.

(** X3.  Whatever the command does, [run_command] either returns [True],
    adds 1 to [passed_checks] and leaves both lists alone, or returns
    [False], leaves [passed_checks] alone and appends exactly one label
    [description - reason] to [failed_checks] when [critical] is set (then
    [warnings] is untouched) and to [warnings] otherwise (then
    [failed_checks] is untouched). *)
Theorem run_command_routes cmd desc critical c w :
  let r := run_command cmd desc critical (c, w) in
  let c' := fst (snd r) in
  (fst (fst r) = true
   /\ passed_checks c' = passed_checks c + 1
   /\ failed_checks c' = failed_checks c
   /\ warnings c' = warnings c)
  \/ (fst (fst r) = false
      /\ passed_checks c' = passed_checks c
      /\ exists reason,
           if critical
           then failed_checks c' = failed_checks c ++ [(desc ++ " - " ++ reason)%string]
                /\ warnings c' = warnings c
           else warnings c' = warnings c ++ [(desc ++ " - " ++ reason)%string]
                /\ failed_checks c' = failed_checks c).
Proof.
  destruct (run_command_effect cmd desc critical c w) as (w' & E & _).
  cbn zeta in *. rewrite E. cbn [fst snd]. unfold record.
  destruct (result_of (os w (length (trace w)) cmd)) as [rc out err| |e];
    cbn [passes failure_label].
  - destruct (rc =? 0); [left; now cbn|].
    right. split; [reflexivity|]. split; [now destruct critical|].
    exists "FAILED"%string. now destruct critical.
  - right. split; [reflexivity|]. split; [now destruct critical|].
    exists "TIMEOUT"%string. now destruct critical.
  - right. split; [reflexivity|]. split; [now destruct critical|].
    exists ("ERROR: " ++ e)%string. now destruct critical.
Qed.

(** ** The phases *)

Lemma phase_runs_every_check title step critical checks c w :
  exists c' w',
    (print_header title ;; for_each checks (phase_body step critical) true) (c, w)
    = (all_pass (os w) (length (trace w)) checks, (c', w'))
    /\ trace w' = trace w ++ execs checks
    /\ total_checks c' = total_checks c + len checks.
Proof.
  destruct (phase_effect title step critical checks c w) as (w' & E & X).
  rewrite phase_fold_fst in E. cbn [andb] in E.
  eexists _, w'. split; [exact E|]. split; [exact (ext_trace X)|].
  apply (phase_fold_counts critical (os w) checks (length (trace w)) true c).
Qed.

(** X4.  Each of the four command phases after the prerequisites runs every
    command of its list, in order, whatever the earlier ones answered, and
    returns [True] exactly when every one of them exits with status 0 in
    time: a failing command makes the result [False] and does not stop the
    loop. *)
Theorem command_phases_report_all_pass c w :
  (exists c' w',
      core_compilation_tests (c, w)
      = (all_pass (os w) (length (trace w)) core_checks, (c', w'))
      /\ trace w'
         = trace w ++ [ Exec ["cargo"; "check"]; Exec ["cargo"; "build"];
                        Exec ["cargo"; "build"; "--release"]; Exec ["cargo"; "test"];
                        Exec ["cargo"; "test"; "--all-targets"] ]%string
      /\ total_checks c' = total_checks c + 5)
  /\ (exists c' w',
         code_quality_checks (c, w)
         = (all_pass (os w) (length (trace w)) quality_checks, (c', w'))
         /\ trace w'
            = trace w
              ++ [ Exec ["cargo"; "fmt"; "--all"; "--check"];
                   Exec ["cargo"; "clippy"; "--all-targets"; "--all-features"; "--"; "-D";
                         "warnings"];
                   Exec ["cargo"; "check"; "--all-targets"; "--all-features"] ]%string
         /\ total_checks c' = total_checks c + 3)
  /\ (exists c' w',
         documentation_checks (c, w)
         = (all_pass (os w) (length (trace w)) documentation_list, (c', w'))
         /\ trace w'
            = trace w ++ [ Exec ["cargo"; "doc"; "--no-deps"];
                           Exec ["cargo"; "doc"; "--all-features"; "--no-deps"] ]%string
         /\ total_checks c' = total_checks c + 2)
  /\ (exists c' w',
         package_validation (c, w)
         = (all_pass (os w) (length (trace w)) package_checks, (c', w'))
         /\ trace w'
            = trace w ++ [ Exec ["cargo"; "package"; "--list"];
                           Exec ["cargo"; "package"; "--allow-dirty"] ]%string
         /\ total_checks c' = total_checks c + 2).
Proof.
  split; [|split; [|split]].
  - exact (phase_runs_every_check "CORE COMPILATION & TESTING" true true core_checks c w).
  - exact (phase_runs_every_check "CODE QUALITY CHECKS" true true quality_checks c w).
  - exact (phase_runs_every_check "DOCUMENTATION CHECKS" true false documentation_list c w).
  - exact (phase_runs_every_check "PACKAGE VALIDATION" true false package_checks c w).
Qed.

(** One failing command in the middle: the phase returns [False] and the
    two commands after it are run all the same. *)
Example core_phase_runs_past_a_failure :
  let w := blank (fun _ argv => if str_in "--release" argv
                                then Terminates 1 101 "" "error: could not compile"
                                else Terminates 1 0 "ok" "")
                 (fun _ _ => true) in
  let r := core_compilation_tests (__init__, w) in
  fst r = false
  /\ fst (snd r) = mkChecker 4 5 ["Release build - FAILED"%string] []
  /\ length (trace (snd (snd r))) = 5%nat.
Proof. vm_compute. repeat split. Qed.

Lemma record_routes critical desc r c :
  (critical = true -> warnings (record critical desc r c) = warnings c)
  /\ (critical = false -> failed_checks (record critical desc r c) = failed_checks c).
Proof.
  unfold record. destruct (passes r), critical; cbn; split; congruence.
Qed.

Lemma phase_fold_routes critical o checks :
  forall n all_passed c,
    (critical = true
     -> warnings (snd (phase_fold critical o n checks all_passed c)) = warnings c)
    /\ (critical = false
        -> failed_checks (snd (phase_fold critical o n checks all_passed c)) = failed_checks c).
Proof.
  induction checks as [|[cmd desc] rest IH]; intros n all_passed c; cbn [phase_fold snd].
  - split; reflexivity.
  - match goal with |- context [phase_fold critical o (S n) rest ?a ?c1] =>
      destruct (IH (S n) a c1) as [W F]
    end.
    destruct (record_routes critical desc (result_of (o n cmd)) c) as [W0 F0].
    split; intros K; [rewrite (W K), (W0 K) | rewrite (F K), (F0 K)]; reflexivity.
Qed.

(** X5.  Failures are routed by phase: the prerequisites, core-build and
    code-quality phases never add to [warnings]; the documentation and
    package phases never add to [failed_checks]. *)
Theorem phases_route_by_criticality c w :
  warnings (fst (snd (check_prerequisites (c, w)))) = warnings c
  /\ warnings (fst (snd (core_compilation_tests (c, w)))) = warnings c
  /\ warnings (fst (snd (code_quality_checks (c, w)))) = warnings c
  /\ failed_checks (fst (snd (documentation_checks (c, w)))) = failed_checks c
  /\ failed_checks (fst (snd (package_validation (c, w)))) = failed_checks c.
Proof.
  repeat split.
  - destruct (phase_effect "PREREQUISITE CHECKS" false true tools c w) as (w' & E & _).
    fold check_prerequisites in E. rewrite E. cbn [fst snd].
    now apply phase_fold_routes.
  - destruct (phase_effect "CORE COMPILATION & TESTING" true true core_checks c w)
      as (w' & E & _).
    fold core_compilation_tests in E. rewrite E. cbn [fst snd].
    now apply phase_fold_routes.
  - destruct (phase_effect "CODE QUALITY CHECKS" true true quality_checks c w)
      as (w' & E & _).
    fold code_quality_checks in E. rewrite E. cbn [fst snd].
    now apply phase_fold_routes.
  - destruct (phase_effect "DOCUMENTATION CHECKS" true false documentation_list c w)
      as (w' & E & _).
    fold documentation_checks in E. rewrite E. cbn [fst snd].
    now apply phase_fold_routes.
  - destruct (phase_effect "PACKAGE VALIDATION" true false package_checks c w)
      as (w' & E & _).
    fold package_validation in E. rewrite E. cbn [fst snd].
    now apply phase_fold_routes.
Qed.

(** X6.  In every directory, the metadata phase probes the three files in
    order and appends to [warnings] exactly the labels [<description>
    missing] of the missing ones, in that order; each file that exists
    adds 1 to [passed_checks]; [total_checks] goes up by 3. *)
Theorem metadata_records_missing_files c w :
  exists all_passed c' w',
    metadata_checks (c, w) = (all_passed, (c', w'))
    /\ warnings c' = warnings c ++ missing_labels (fs w) (length (trace w)) required_files
    /\ passed_checks c' + len (missing_labels (fs w) (length (trace w)) required_files)
       = passed_checks c + 3
    /\ total_checks c' = total_checks c + 3
    /\ trace w' = trace w ++ [Probe "Cargo.toml"; Probe "README.md"; Probe "LICENSE"]%string.
Proof.
  destruct (metadata_checks_effect c w) as (b & w' & E & X).
  eexists _, _, w'. split; [exact E|].
  destruct (metadata_fold_records (fs w) required_files (length (trace w)) c) as [W P].
  destruct (metadata_fold_counts (fs w) required_files (length (trace w)) c) as [T _].
  cbn zeta in W, P, T.
  split; [exact W|]. split; [exact P|]. split; [exact T | exact (ext_trace X)].
Qed.

(** All eight directories: which labels are recorded. *)
Example missing_labels_table (f : nat -> string -> bool) :
  missing_labels f 15 required_files
  = (if f 15%nat "Cargo.toml"%string then [] else ["Cargo manifest missing"%string])
    ++ (if f 16%nat "README.md"%string then [] else ["README file missing"%string])
    ++ (if f 17%nat "LICENSE"%string then [] else ["License file missing"%string]).
Proof. cbn. now rewrite app_nil_r. Qed.

(** X7.  The value [metadata_checks] returns depends on the manifest
    alone: it is [True] exactly when [Cargo.toml] exists, whether or not
    [README.md] and [LICENSE] do. *)
Theorem metadata_result_is_manifest c w :
  fst (metadata_checks (c, w)) = fs w (length (trace w)) "Cargo.toml"%string.
Proof. apply metadata_checks_result. Qed.

(** ** Whole runs *)

(** X8.  Once the prerequisites pass, no later failure stops the run: it
    always makes the same eighteen invocations in the same order (fifteen
    commands, then the three file probes) and ends with [total_checks] at
    18, whatever the commands answer. *)
Theorem later_failures_do_not_abort argv w :
  help_requested argv = false ->
  prerequisites_pass w = true ->
  exists code checker w',
    main argv w = ((code, Some checker), w')
    /\ trace w' = trace w ++ execs tools ++ later_events
    /\ length (execs tools ++ later_events) = 18%nat
    /\ total_checks checker = 18.
Proof.
  intros H P.
  destruct (main_complete argv w H P) as (w' & E & X & _).
  eexists _, _, w'. split; [exact E|]. split; [exact (ext_trace X)|].
  split; [reflexivity|].
  unfold at_summary.
  destruct (later_fold_counts (os w) (fs w) (length (trace w) + 3)
              (after_prerequisites w __init__)) as [T _].
  destruct (phase_fold_counts true (os w) tools (length (trace w)) true __init__) as [T0 _].
  cbn zeta in T, T0. fold (after_prerequisites w __init__) in T0.
  rewrite T, T0. reflexivity.
Qed.

Lemma later_failures_do_not_abort_witness :
  exists code checker w',
    main ["cratecheck.py"%string] troubled = ((code, Some checker), w')
    /\ trace w' = trace troubled ++ execs tools ++ later_events
    /\ length (execs tools ++ later_events) = 18%nat
    /\ total_checks checker = 18.
Proof.
  apply (later_failures_do_not_abort ["cratecheck.py"%string] troubled).
  - reflexivity.
  - vm_compute. reflexivity.
Defined.

Lemma record_quiet critical desc r c :
  quiet (record critical desc r c) <-> quiet c /\ passes r = true.
Proof.
  unfold record, quiet.
  destruct (passes r), critical; cbn; split;
    try tauto; intros [F W]; try discriminate;
    try (apply app_eq_nil in F; destruct F; discriminate);
    try (apply app_eq_nil in W; destruct W; discriminate).
Qed.

Lemma phase_fold_quiet critical o checks :
  forall n all_passed c,
    quiet (snd (phase_fold critical o n checks all_passed c))
    <-> quiet c /\ all_pass o n checks = true.
Proof.
  induction checks as [|[cmd desc] rest IH]; intros n all_passed c;
    cbn [phase_fold all_pass snd].
  - tauto.
  - rewrite IH, record_quiet, andb_true_iff. tauto.
Qed.

Lemma metadata_fold_quiet f files :
  forall n c,
    quiet (metadata_fold f n files c) <-> quiet c /\ all_exist f n files = true.
Proof.
  induction files as [|[filename desc] rest IH]; intros n c;
    cbn [metadata_fold all_exist].
  - tauto.
  - destruct (f n filename); rewrite IH; cbn [andb]; unfold quiet; cbn.
    + tauto.
    + split; [|intros [_ D]; discriminate].
      intros [[_ W] _]. apply app_eq_nil in W. destruct W. discriminate.
Qed.

Lemma quiet_ready c : ready c = true <-> quiet c.
Proof. apply ready_iff. Qed.

(** X9.  The exit status is 0 exactly when all eighteen checks pass: the
    three tools, each of the twelve later commands (exit status 0 in time)
    and each of the three files (present).  One failing check anywhere
    gives status 1. *)
Theorem exit_zero_iff_everything_passes argv w :
  help_requested argv = false ->
  (fst (fst (main argv w)) = 0 <-> everything_passes w = true).
Proof.
  intros H. unfold everything_passes. cbn zeta.
  destruct (prerequisites_pass w) eqn:P.
  - destruct (main_complete argv w H P) as (w' & E & _ & _).
    rewrite E. cbn [fst andb].
    assert (R : ready (at_summary w __init__) = true
                <-> (all_pass (os w) (length (trace w) + 3) core_checks
                     && all_pass (os w) (length (trace w) + 3 + 5) quality_checks
                     && all_pass (os w) (length (trace w) + 3 + 8) documentation_list
                     && all_pass (os w) (length (trace w) + 3 + 10) package_checks
                     && all_exist (fs w) (length (trace w) + 3 + 12) required_files) = true).
    { rewrite quiet_ready. unfold at_summary, later_fold. cbn [snd].
      rewrite metadata_fold_quiet, !phase_fold_quiet.
      unfold after_prerequisites. rewrite phase_fold_quiet.
      fold (prerequisites_pass w). rewrite P, !andb_true_iff.
      unfold quiet. cbn. tauto. }
    destruct (ready (at_summary w __init__)); rewrite <- R; split; congruence.
  - destruct (main_abort argv w H P) as (w' & E & _).
    rewrite E. cbn. split; discriminate.
Qed.

Lemma exit_zero_iff_everything_passes_witness :
  fst (fst (main ["cratecheck.py"%string] healthy)) = 0
  /\ fst (fst (main ["cratecheck.py"%string] silent_failure)) <> 0.
Proof.
  split.
  - apply (exit_zero_iff_everything_passes ["cratecheck.py"%string] healthy).
    + reflexivity.
    + vm_compute. reflexivity.
  - intros Z.
    apply (exit_zero_iff_everything_passes ["cratecheck.py"%string] silent_failure) in Z.
    + vm_compute in Z. discriminate.
    + reflexivity.
Defined.

(** ** Nothing recorded is ever taken back *)

Lemma grows_refl {A} (xs : list A) : grows xs xs.
Proof. exists []. now rewrite app_nil_r. Qed.

Lemma grows_trans {A} (xs ys zs : list A) : grows xs ys -> grows ys zs -> grows xs zs.
Proof. intros [m1 ->] [m2 ->]. exists (m1 ++ m2). now rewrite app_assoc. Qed.

Lemma grows_app {A} (xs more : list A) : grows xs (xs ++ more).
Proof. now exists more. Qed.

Lemma advances_refl c : advances c c.
Proof. repeat split; try lia; apply grows_refl. Qed.

Lemma advances_trans c1 c2 c3 : advances c1 c2 -> advances c2 c3 -> advances c1 c3.
Proof.
  intros (P1 & T1 & F1 & W1) (P2 & T2 & F2 & W2).
  repeat split; try lia; eapply grows_trans; eassumption.
Qed.

Lemma record_advances critical desc r c : advances c (record critical desc r c).
Proof.
  unfold record, advances.
  destruct (passes r), critical; cbn; repeat split; try lia;
    apply grows_refl || apply grows_app.
Qed.

Lemma phase_fold_advances critical o checks :
  forall n all_passed c, advances c (snd (phase_fold critical o n checks all_passed c)).
Proof.
  induction checks as [|[cmd desc] rest IH]; intros n all_passed c; cbn [phase_fold snd].
  - apply advances_refl.
  - eapply advances_trans; [apply record_advances | apply IH].
Qed.

Lemma metadata_fold_advances f files :
  forall n c, advances c (metadata_fold f n files c).
Proof.
  induction files as [|[filename desc] rest IH]; intros n c; cbn [metadata_fold].
  - apply advances_refl.
  - destruct (f n filename); (eapply advances_trans; [|apply IH]);
      unfold advances; cbn; repeat split; try lia; apply grows_refl || apply grows_app.
Qed.

Lemma later_fold_advances o f n c : advances c (later_fold o f n c).
Proof.
  unfold later_fold. cbn zeta.
  eapply advances_trans; [apply phase_fold_advances|].
  eapply advances_trans; [apply phase_fold_advances|].
  eapply advances_trans; [apply phase_fold_advances|].
  eapply advances_trans; [apply phase_fold_advances|].
  apply metadata_fold_advances.
Qed.

(** X10.  No method takes back what was recorded: across one
    [run_command], across [metadata_checks] and across a whole
    [run_all_checks] started on any controller, the two counters do not
    decrease and each list keeps its entries, in place, with new ones only
    added at the end. *)
Theorem recording_is_monotone c w :
  (forall cmd desc critical, advances c (fst (snd (run_command cmd desc critical (c, w)))))
  /\ advances c (fst (snd (metadata_checks (c, w))))
  /\ advances c (fst (snd (run_all_checks (c, w)))).
Proof.
  split; [|split].
  - intros cmd desc critical.
    destruct (run_command_effect cmd desc critical c w) as (w' & E & _).
    rewrite E. apply record_advances.
  - destruct (metadata_checks_effect c w) as (b & w' & E & _).
    rewrite E. apply metadata_fold_advances.
  - destruct (prerequisites_pass w) eqn:P.
    + destruct (run_all_checks_complete c w P) as (w' & E & _).
      rewrite E. cbn [fst snd]. unfold at_summary.
      eapply advances_trans; [|apply later_fold_advances].
      apply phase_fold_advances.
    + destruct (run_all_checks_abort c w P) as (w' & E & _).
      rewrite E. cbn [fst snd]. apply phase_fold_advances.
Qed.

(** ** The abort *)

Lemma run_all_checks_abort_console c w :
  prerequisites_pass w = false ->
  exists w1,
    run_all_checks (c, w)
    = (false, (after_prerequisites w c, set_console (console w1 ++ [abort_line]) w1))
    /\ extends w w1 (execs tools).
Proof.
  intros P. unfold run_all_checks.
  destruct (banner_effect
              (ok <- check_prerequisites ;;
               if negb ok then
                 io (print (NL ++ Colors.RED ++ "❌ Prerequisites failed. Cannot continue."
                               ++ Colors.END)%string) ;;
                 ret false
               else
                 checks_passed <- later_phases true ;;
                 t <- io (gets elapsed) ;;
                 io (print (NL ++ Colors.CYAN ++ "⏱️  Total execution time: " ++ t
                               ++ " seconds" ++ Colors.END)%string) ;;
                 print_summary) c w) as (w0 & E0 & X0).
  rewrite E0. clear E0.
  destruct (prerequisites_effect c w0) as (w1 & E1 & X1).
  unfold prerequisites_pass in E1.
  rewrite (ext_os X0), (extends_length X0), Nat.add_0_r in E1.
  fold (prerequisites_pass w) in E1. rewrite P in E1.
  rewrite (bind_eq _ E1). cbn [negb].
  rewrite (bind_eq _ (io_print_eq _ _ _)).
  exists w1. split; [reflexivity|]. exact (extends_trans X0 X1).
Qed.

(** X11.  A run aborted by the prerequisites prints no summary: the last
    line on the console is [Prerequisites failed. Cannot continue.], the
    console ends with none of the three verdict messages, and the exit
    status is 1. *)
Theorem abort_prints_no_verdict argv w :
  help_requested argv = false ->
  prerequisites_pass w = false ->
  let w' := snd (main argv w) in
  fst (fst (main argv w)) = 1
  /\ ends_with (console w') [abort_line]
  /\ ~ ends_with (console w') ready_message
  /\ ~ ends_with (console w') warnings_message
  /\ ~ ends_with (console w') failures_message.
Proof.
  intros H P.
  destruct (run_all_checks_abort_console __init__ w P) as (w1 & E & _).
  rewrite (@main_run argv w _ _ _ H E). cbn [fst snd].
  assert (S : ends_with (console (set_console (console w1 ++ [abort_line]) w1)) [abort_line])
    by now exists (console w1).
  split; [reflexivity|]. split; [exact S|].
  repeat split; revert S; apply distinct_endings; try discriminate; now vm_compute.
Qed.

Lemma abort_prints_no_verdict_witness :
  fst (fst (main ["cratecheck.py"%string] no_git)) = 1
  /\ ends_with (console (snd (main ["cratecheck.py"%string] no_git))) [abort_line]
  /\ ~ ends_with (console (snd (main ["cratecheck.py"%string] no_git))) ready_message
  /\ ~ ends_with (console (snd (main ["cratecheck.py"%string] no_git))) warnings_message
  /\ ~ ends_with (console (snd (main ["cratecheck.py"%string] no_git))) failures_message.
Proof.
  apply (abort_prints_no_verdict ["cratecheck.py"%string] no_git).
  - reflexivity.
  - vm_compute. reflexivity.
Defined.

(** ** What the summary writes *)

Lemma writes_print s c : writes (io (print s)) c tt [s].
Proof. intros w. reflexivity. Qed.

Lemma writes_get {A} (f : CrateChecker -> A) c : writes (self_get f) c (f c) [].
Proof. intros w. rewrite self_get_eq. cbn. rewrite app_nil_r. now destruct w. Qed.

Lemma writes_ret {A} (a : A) c : writes (ret a) c a [].
Proof. intros w. cbn. rewrite app_nil_r. now destruct w. Qed.

Lemma writes_bind {A B} (m : Method A) (k : A -> Method B) c a b l1 l2 :
  writes m c a l1 -> writes (k a) c b l2 -> writes (bind m k) c b (l1 ++ l2).
Proof.
  intros Hm Hk w. rewrite (bind_eq _ (Hm w)), Hk. cbn. now rewrite app_assoc.
Qed.

Lemma writes_all lines c : writes (print_all lines) c tt lines.
Proof. intros w. apply print_all_eq. Qed.

Lemma writes_header title c : writes (print_header title) c tt (header_lines title).
Proof.
  unfold print_header, header_lines.
  change [?a; ?b; ?d] with ([a] ++ [b] ++ [d]).
  repeat (apply writes_bind with (a := tt); [apply writes_print|]). apply writes_print.
Qed.

Lemma writes_listing (show : bool) (head : string) (lines : list string) c :
  writes (if show then io (print head) ;; print_all lines else ret tt) c tt
    (if show then head :: lines else []).
Proof.
  destruct show; [|apply writes_ret].
  change (head :: lines) with ([head] ++ lines).
  apply writes_bind with (a := tt); [apply writes_print | apply writes_all].
Qed.

Lemma writes_closing {A} (message : list string) c (a : A) :
  writes (print_all message ;; ret a) c a message.
Proof.
  rewrite <- (app_nil_r message) at 2.
  apply writes_bind with (a := tt); [apply writes_all | apply writes_ret].
Qed.

Lemma print_summary_writes c : writes print_summary c (ready c) (summary_report c).
Proof.
  unfold print_summary, summary_report.
  apply writes_bind with (a := tt); [apply writes_header|].
  change [?l1; ?l2; ?l3; ?l4; ?l5] with ([l1] ++ [] ++ [l2] ++ [] ++ [l3] ++ [] ++ [l4] ++ [] ++ [l5]).
  rewrite <- !app_assoc.
  apply writes_bind with (a := tt); [apply writes_print|].
  apply writes_bind with (a := total_checks c); [apply writes_get|].
  apply writes_bind with (a := tt); [apply writes_print|].
  apply writes_bind with (a := passed_checks c); [apply writes_get|].
  apply writes_bind with (a := tt); [apply writes_print|].
  apply writes_bind with (a := failed_checks c); [apply writes_get|].
  apply writes_bind with (a := tt); [apply writes_print|].
  apply writes_bind with (a := warnings c); [apply writes_get|].
  apply writes_bind with (a := tt); [apply writes_print|].
  apply writes_bind with (a := tt); [apply writes_listing|].
  apply writes_bind with (a := tt); [apply writes_listing|].
  unfold ready, closing_message.
  destruct (negb (truthy (failed_checks c)) && negb (truthy (warnings c)));
    [|destruct (negb (truthy (failed_checks c)) && truthy (warnings c))];
    apply writes_closing.
Qed.

Lemma truthy_in {A} (x : A) xs : In x xs -> truthy xs = true.
Proof. destruct xs; [contradiction | reflexivity]. Qed.

(** X12.  [print_summary] only reports: on any controller it returns
    [True] exactly when both lists are empty, leaves the controller, the
    invocation trace and the running children as they were, and appends to
    the console the report of the controller, in which every label of
    [failed_checks] and every label of [warnings] has its bullet line. *)
Theorem summary_lists_every_label c w :
  exists w',
    print_summary (c, w) = (ready c, (c, w'))
    /\ (ready c = true <-> failed_checks c = [] /\ warnings c = [])
    /\ console w' = console w ++ summary_report c
    /\ trace w' = trace w
    /\ children w' = children w
    /\ (forall failure, In failure (failed_checks c) -> In (failure_bullet failure) (console w'))
    /\ (forall warning, In warning (warnings c) -> In (warning_bullet warning) (console w')).
Proof.
  eexists. split; [apply print_summary_writes|].
  split; [apply ready_iff|]. cbn [console trace children set_console].
  repeat split.
  - intros failure I. apply in_or_app. right. unfold summary_report.
    apply in_or_app. right. apply in_or_app. right. apply in_or_app. left.
    rewrite (truthy_in _ _ I). right. now apply in_map.
  - intros warning I. apply in_or_app. right. unfold summary_report.
    apply in_or_app. right. apply in_or_app. right. apply in_or_app. right.
    apply in_or_app. left.
    rewrite (truthy_in _ _ I). right. now apply in_map.
Qed.

Lemma summary_lists_every_label_witness :
  In (failure_bullet "All tests - FAILED")
     (console (snd (snd (print_summary (troubled_checker, troubled)))))
  /\ In (warning_bullet "Basic documentation - TIMEOUT")
        (console (snd (snd (print_summary (troubled_checker, troubled))))).
Proof.
  destruct (summary_lists_every_label troubled_checker troubled)
    as (w' & E & _ & _ & _ & _ & F & W).
  rewrite E. cbn [snd]. split.
  - apply F. left. reflexivity.
  - apply W. left. reflexivity.
Defined.

(** ** Which verdict, by the checks that fail *)









(** ** Running again *)

Lemma all_pass_steady o checks :
  steady o -> forall n m, all_pass o n checks = all_pass o m checks.
Proof.
  intros St. induction checks as [|[cmd desc] rest IH]; intros n m; cbn.
  - reflexivity.
  - now rewrite (St n m cmd), (IH (S n) (S m)).
Qed.

Lemma phase_fold_steady critical o checks :
  steady o ->
  forall n m all_passed c,
    phase_fold critical o n checks all_passed c = phase_fold critical o m checks all_passed c.
Proof.
  intros St. induction checks as [|[cmd desc] rest IH]; intros n m all_passed c; cbn.
  - reflexivity.
  - now rewrite (St n m cmd), (IH (S n) (S m)).
Qed.

Lemma metadata_fold_steady f files :
  steady f ->
  forall n m c, metadata_fold f n files c = metadata_fold f m files c.
Proof.
  intros St. induction files as [|[filename desc] rest IH]; intros n m c; cbn.
  - reflexivity.
  - rewrite (St n m filename). destruct (f m filename); apply IH.
Qed.

Lemma later_fold_steady o f :
  steady o -> steady f ->
  forall n m c, later_fold o f n c = later_fold o f m c.
Proof.
  intros So Sf n m c. unfold later_fold.
  rewrite (phase_fold_steady true core_checks So n m).
  rewrite (phase_fold_steady true quality_checks So (n + 5) (m + 5)).
  rewrite (phase_fold_steady false documentation_list So (n + 8) (m + 8)).
  rewrite (phase_fold_steady false package_checks So (n + 10) (m + 10)).
  rewrite (metadata_fold_steady required_files Sf (n + 12) (m + 12)).
  reflexivity.
Qed.

Lemma steady_run_again w w' evs c :
  steady (os w) -> steady (fs w) -> extends w w' evs ->
  prerequisites_pass w' = prerequisites_pass w
  /\ after_prerequisites w' c = after_prerequisites w c
  /\ at_summary w' c = at_summary w c.
Proof.
  intros So Sf X.
  unfold at_summary, after_prerequisites, prerequisites_pass.
  rewrite (ext_os X), (ext_fs X).
  rewrite (all_pass_steady tools So (length (trace w')) (length (trace w))).
  rewrite (phase_fold_steady true tools So (length (trace w')) (length (trace w))).
  rewrite (later_fold_steady So Sf (length (trace w') + 3) (length (trace w) + 3)).
  repeat split.
Qed.

Lemma main_extends argv w : exists evs, extends w (snd (main argv w)) evs.
Proof.
  destruct (help_requested argv) eqn:H.
  - rewrite (main_help argv w H). exists []. apply extends_console.
  - destruct (prerequisites_pass w) eqn:P.
    + destruct (main_complete argv w H P) as (w' & E & X & _). rewrite E. eauto.
    + destruct (main_abort argv w H P) as (w' & E & X). rewrite E. eauto.
Qed.

(** X14.  When the tools and the files answer the same at every
    invocation, running the program a second time, in the world the first
    run left, gives the same exit status and a controller with the same
    counters and the same two lists: nothing a run leaves behind changes
    the next one. *)
Theorem second_run_agrees argv w :
  steady (os w) -> steady (fs w) ->
  fst (main argv (snd (main argv w))) = fst (main argv w).
Proof.
  intros So Sf.
  destruct (main_extends argv w) as [evs X].
  set (w1 := snd (main argv w)) in *.
  destruct (help_requested argv) eqn:H.
  - now rewrite (main_help argv w H), (main_help argv w1 H).
  - destruct (steady_run_again __init__ So Sf X) as (P1 & A1 & S1).
    destruct (prerequisites_pass w) eqn:P.
    + destruct (main_complete argv w H P) as (w' & E & _).
      destruct (main_complete argv w1 H P1) as (w'' & E' & _).
      rewrite E, E'. cbn [fst]. now rewrite S1.
    + destruct (main_abort argv w H P) as (w' & E & _).
      destruct (main_abort argv w1 H P1) as (w'' & E' & _).
      rewrite E, E'. cbn [fst]. now rewrite A1.
Qed.

Lemma second_run_agrees_witness :
  fst (main ["cratecheck.py"%string] (snd (main ["cratecheck.py"%string] troubled)))
  = fst (main ["cratecheck.py"%string] troubled).
Proof.
  apply (second_run_agrees ["cratecheck.py"%string] troubled).
  - intros n m x. reflexivity.
  - intros n m x. reflexivity.
Defined.

(** ** Arguments other than the help flag *)

(** X15.  Unless the first argument is exactly [-h] or [--help], [main]
    ignores its arguments and runs the checks: it creates a controller,
    makes the three prerequisite invocations first, ends with
    [total_checks] at 3 (abort) or 18 (complete run), and the exit status
    is 0 or 1. *)
Theorem without_help_checks_run argv w :
  nth_error argv 1 <> Some "-h"%string ->
  nth_error argv 1 <> Some "--help"%string ->
  exists code checker w' later,
    main argv w = ((code, Some checker), w')
    /\ (code = 0 \/ code = 1)
    /\ trace w' = trace w ++ execs tools ++ later
    /\ (total_checks checker = 3 \/ total_checks checker = 18).
Proof.
  intros N1 N2.
  assert (H : help_requested argv = false).
  { destruct (help_requested argv) eqn:H; [|reflexivity].
    apply help_requested_iff in H. tauto. }
  destruct (phase_fold_counts true (os w) tools (length (trace w)) true __init__) as [T0 _].
  cbn zeta in T0. fold (after_prerequisites w __init__) in T0.
  destruct (prerequisites_pass w) eqn:P.
  - destruct (main_complete argv w H P) as (w' & E & X & _).
    eexists _, _, w', later_events. split; [exact E|].
    split; [destruct (ready (at_summary w __init__)); auto|].
    split; [rewrite (ext_trace X); reflexivity|].
    right. unfold at_summary.
    destruct (later_fold_counts (os w) (fs w) (length (trace w) + 3)
                (after_prerequisites w __init__)) as [T _].
    cbn zeta in T. rewrite T, T0. reflexivity.
  - destruct (main_abort argv w H P) as (w' & E & X).
    eexists _, _, w', []. split; [exact E|]. split; [auto|].
    split; [rewrite (ext_trace X); now rewrite app_nil_r|].
    left. rewrite T0. reflexivity.
Qed.

Lemma without_help_checks_run_witness :
  exists code checker w' later,
    main ["cratecheck.py"; "--verbose"; "-h"]%string healthy = ((code, Some checker), w')
    /\ (code = 0 \/ code = 1)
    /\ trace w' = trace healthy ++ execs tools ++ later
    /\ (total_checks checker = 3 \/ total_checks checker = 18).
Proof.
  apply (without_help_checks_run ["cratecheck.py"; "--verbose"; "-h"]%string healthy);
    discriminate.
Defined.

(** ** What is written to the console *)

Lemma run_command_writes cmd desc critical c w :
  let r := result_of (os w (length (trace w)) cmd) in
  exists w',
    run_command cmd desc critical (c, w)
      = ((passes r, returned_text r), (record critical desc r c, w'))
    /\ console w' = console w ++ command_lines cmd desc r.
Proof.
  intros r. unfold run_command.
  rewrite (bind_eq _ (self_set_eq _ _ _)).
  rewrite (bind_eq _ (io_print_eq _ _ _)).
  set (w1 := set_console _ w).
  destruct (subprocess_run_effect cmd w1) as (w2 & E & _ & C & _).
  assert (Eio : io (subprocess_run cmd command_timeout) (incr_total c, w1)
                = (r, (incr_total c, w2))).
  { unfold io. cbn [snd fst]. now rewrite E. }
  rewrite (bind_eq _ Eio). clear Eio E.
  assert (C' : console w2 = console w ++ [("   Running: " ++ join " " cmd)%string]) by exact C.
  clear C. clearbody w1.
  unfold record, command_lines.
  destruct r as [rc out err| |e]; cbn [passes returned_text failure_label];
    [destruct (rc =? 0); [|destruct (nonempty err)]| |];
    repeat rewrite (bind_eq _ (io_print_eq _ _ _));
    try rewrite (bind_eq _ (ret_eq tt _));
    try (destruct critical);
    rewrite (bind_eq _ (self_set_eq _ _ _));
    (eexists; split; [reflexivity|]);
    cbn [console set_console]; rewrite C', <- ?app_assoc; reflexivity.
Qed.

(** X16.  [run_command] writes the [Running:] line with the arguments
    joined by spaces, then one outcome line ([PASSED], [FAILED], [TIMEOUT]
    or [ERROR: ...] after the description), and after a [FAILED] line the
    captured standard error, stripped, when it is not empty; captured
    standard output is never written, and the [critical] flag does not
    change what is written. *)
Theorem run_command_console cmd desc critical c w :
  console (snd (snd (run_command cmd desc critical (c, w))))
  = console w ++ command_lines cmd desc (result_of (os w (length (trace w)) cmd)).
Proof.
  destruct (run_command_writes cmd desc critical c w) as (w' & E & C).
  cbn zeta in E. rewrite E. exact C.
Qed.

Lemma code_points_append s t :
  code_points (s ++ t)%string = (code_points s + code_points t)%nat.
Proof.
  induction s as [|a s IH]; [reflexivity|].
  change (String a s ++ t)%string with (String a (s ++ t)%string).
  cbn [code_points]. rewrite IH. now destruct (is_continuation a).
Qed.

Lemma code_points_spaces n : code_points (str_repeat " " n) = n.
Proof.
  induction n as [|n IH]; [reflexivity|].
  cbn [str_repeat]. rewrite code_points_append, IH. reflexivity.
Qed.

Lemma center_sixty title : center title 60 = padded title.
Proof.
  unfold center, padded. cbn zeta.
  set (n := code_points title).
  destruct (Nat.leb_spec 60 n) as [L|L].
  - destruct (Z.leb_spec (60 - Z.of_nat n) 0) as [_|G]; [reflexivity | lia].
  - destruct (Z.leb_spec (60 - Z.of_nat n) 0) as [G|_]; [lia|].
    rewrite <- Z.land_assoc. change (Z.land 60 1) with 0. rewrite Z.land_0_r, Z.add_0_r.
    replace (Z.to_nat ((60 - Z.of_nat n) / 2)) with ((60 - n) / 2)%nat.
    + replace (Z.to_nat (60 - Z.of_nat n - (60 - Z.of_nat n) / 2))
        with (60 - n - (60 - n) / 2)%nat; [reflexivity|].
      apply Nat2Z.inj. rewrite Z2Nat.id.
      * rewrite Nat2Z.inj_sub by (apply Nat.Div0.div_le_upper_bound; lia).
        rewrite Nat2Z.inj_div, Nat2Z.inj_sub by lia. reflexivity.
      * assert (D := Z.div_le_upper_bound (60 - Z.of_nat n) 2 (60 - Z.of_nat n)).
        lia.
    + apply Nat2Z.inj. rewrite Z2Nat.id by (apply Z.div_pos; lia).
      rewrite Nat2Z.inj_div, Nat2Z.inj_sub by lia. reflexivity.
Qed.

(** X17.  [print_header] writes three lines and touches nothing else: a
    rule of sixty [=], the title, and the rule again.  A title of fewer
    than sixty characters (code points, as [len] counts them) is padded
    with spaces to exactly sixty characters, the left margin being half
    the room rounded down; a title of sixty characters or more is written
    as it is. *)
Theorem header_is_sixty_wide title c w :
  exists w',
    print_header title (c, w) = (tt, (c, w'))
    /\ console w'
       = console w
         ++ [ (NL ++ Colors.CYAN ++ Colors.BOLD ++ str_repeat "=" 60 ++ Colors.END)%string;
              (Colors.CYAN ++ Colors.BOLD ++ padded title ++ Colors.END)%string;
              (Colors.CYAN ++ Colors.BOLD ++ str_repeat "=" 60 ++ Colors.END)%string ]
    /\ code_points (padded title) = Nat.max 60 (code_points title)
    /\ ((60 <= code_points title)%nat -> padded title = title)
    /\ ((code_points title < 60)%nat ->
        padded title
        = (str_repeat " " ((60 - code_points title) / 2) ++ title
             ++ str_repeat " " (60 - code_points title - (60 - code_points title) / 2))%string)
    /\ str_repeat "=" 60
       = "============================================================"%string
    /\ trace w' = trace w
    /\ children w' = children w.
Proof.
  eexists. split; [apply writes_header|].
  unfold header_lines. rewrite center_sixty. cbn [console trace children set_console].
  split; [reflexivity|].
  split; [|split; [|split; [|now split]]].
  - unfold padded. cbn zeta.
    destruct (Nat.leb_spec 60 (code_points title)) as [L|L]; [lia|].
    rewrite !code_points_append, !code_points_spaces.
    assert (D : ((60 - code_points title) / 2 <= 60 - code_points title)%nat)
      by (apply Nat.Div0.div_le_upper_bound; lia).
    lia.
  - intros L. unfold padded. cbn zeta.
    destruct (Nat.leb_spec 60 (code_points title)); [reflexivity | lia].
  - intros L. unfold padded. cbn zeta.
    destruct (Nat.leb_spec 60 (code_points title)); [lia | reflexivity].
Qed.

Lemma header_is_sixty_wide_witness :
  padded "FINAL SUMMARY"
  = (str_repeat " " 23 ++ "FINAL SUMMARY" ++ str_repeat " " 24)%string
  /\ padded "Résumé" = (str_repeat " " 27 ++ "Résumé" ++ str_repeat " " 27)%string.
Proof.
  destruct (header_is_sixty_wide "FINAL SUMMARY" __init__ healthy)
    as (_ & _ & _ & _ & _ & P1 & _).
  destruct (header_is_sixty_wide "Résumé" __init__ healthy)
    as (_ & _ & _ & _ & _ & P2 & _).
  split.
  - rewrite P1 by (vm_compute; lia). reflexivity.
  - rewrite P2 by (vm_compute; lia). reflexivity.
Defined.

(** The built-ins on text that is not ASCII: [len] counts characters, not
    bytes, and [strip] removes the white space of Unicode. *)
Example text_is_counted_in_characters :
  code_points "Résumé" = 6%nat
  /\ center "ab" 5 = "  ab "%string
  /\ center "abc" 6 = " abc  "%string
  /\ center "Résumé" 8 = " Résumé "%string.
Proof. repeat split. Qed.

(** U+00A0 is the bytes [C2 A0], U+0085 is [C2 85], U+3000 is [E3 80 80];
    U+200B (zero width space, [E2 80 8B]) is not white space for Python. *)
Example strip_removes_unicode_space :
  strip (String "194" (String "160" ("err" ++ String "194" (String "160" "")))) = "err"%string
  /\ strip (String "194" (String "133" " err　")) = "err"%string
  /\ strip (" é" ++ String "227" (String "128" (String "128" " "))) = "é"%string
  /\ strip (NL ++ " a b " ++ NL) = "a b"%string
  /\ strip "  　" = ""%string
  /\ strip (String "226" (String "128" (String "139" "x")))
     = String "226" (String "128" (String "139" "x")).
Proof. repeat split. Qed.

Lemma run_all_checks_complete_console c w :
  prerequisites_pass w = true ->
  exists w2,
    run_all_checks (c, w)
    = (ready (at_summary w c),
       (at_summary w c,
        set_console
          (console w2 ++ [timing_line (elapsed w)] ++ summary_report (at_summary w c)) w2))
    /\ extends w w2 (execs tools ++ later_events).
Proof.
  intros P. unfold run_all_checks.
  destruct (banner_effect
              (ok <- check_prerequisites ;;
               if negb ok then
                 io (print (NL ++ Colors.RED ++ "❌ Prerequisites failed. Cannot continue."
                               ++ Colors.END)%string) ;;
                 ret false
               else
                 checks_passed <- later_phases true ;;
                 t <- io (gets elapsed) ;;
                 io (print (NL ++ Colors.CYAN ++ "⏱️  Total execution time: " ++ t
                               ++ " seconds" ++ Colors.END)%string) ;;
                 print_summary) c w) as (w0 & E0 & X0).
  rewrite E0. clear E0.
  destruct (prerequisites_effect c w0) as (w1 & E1 & X1).
  unfold prerequisites_pass in E1.
  rewrite (ext_os X0), (extends_length X0), Nat.add_0_r in E1.
  fold (prerequisites_pass w) in E1. rewrite P in E1.
  rewrite (bind_eq _ E1). cbn [negb].
  pose proof (extends_trans X0 X1) as X01. cbn [app] in X01.
  destruct (later_phases_effect true (after_prerequisites w c) w1) as (flag & w2 & E2 & X2).
  rewrite (ext_os X01), (ext_fs X01), (extends_length X01) in E2.
  cbn [execs tools map length] in E2.
  fold (at_summary w c) in E2.
  rewrite (bind_eq _ E2).
  pose proof (extends_trans X01 X2) as X012.
  assert (Et : io (gets elapsed) (at_summary w c, w2) = (elapsed w2, (at_summary w c, w2)))
    by reflexivity.
  rewrite (bind_eq _ Et), (bind_eq _ (io_print_eq _ _ _)).
  rewrite print_summary_writes.
  exists w2. split; [|exact X012].
  rewrite (ext_elapsed X012). cbn [console set_console]. unfold timing_line.
  now rewrite <- app_assoc.
Qed.

(** X18.  A run that gets past the prerequisites closes the console with
    the timing line followed by the whole summary report of the controller
    it ends with: the counts written are that controller's
    [total_checks], [passed_checks] and list lengths, and the labels
    listed are its labels. *)
Theorem complete_run_closes_with_report argv w :
  help_requested argv = false ->
  prerequisites_pass w = true ->
  exists code checker w',
    main argv w = ((code, Some checker), w')
    /\ ends_with (console w') (timing_line (elapsed w) :: summary_report checker)
    /\ In ("   Total Checks: " ++ str_of_int (total_checks checker))%string (console w')
    /\ total_checks checker = 18.
Proof.
  intros H P.
  destruct (run_all_checks_complete_console __init__ w P) as (w2 & E & _).
  eexists _, (at_summary w __init__), _. split; [exact (@main_run argv w _ _ _ H E)|].
  cbn [console set_console]. split; [now exists (console w2)|]. split.
  - unfold summary_report. rewrite !in_app_iff. right. right. right. left.
    right. left. reflexivity.
  - unfold at_summary.
    destruct (later_fold_counts (os w) (fs w) (length (trace w) + 3)
                (after_prerequisites w __init__)) as [T _].
    destruct (phase_fold_counts true (os w) tools (length (trace w)) true __init__) as [T0 _].
    cbn zeta in T, T0. fold (after_prerequisites w __init__) in T0.
    rewrite T, T0. reflexivity.
Qed.

Lemma complete_run_closes_with_report_witness :
  exists code checker w',
    main ["cratecheck.py"%string] troubled = ((code, Some checker), w')
    /\ ends_with (console w') (timing_line (elapsed troubled) :: summary_report checker)
    /\ In ("   Total Checks: " ++ str_of_int (total_checks checker))%string (console w')
    /\ total_checks checker = 18.
Proof.
  apply (complete_run_closes_with_report ["cratecheck.py"%string] troubled).
  - reflexivity.
  - vm_compute. reflexivity.
Defined.

(** The summary of the [troubled] run says 18 checks, 14 passed, 2 failed,
    2 warnings. *)
Example troubled_counts :
  firstn 4 (skipn 4 (summary_report troubled_checker))
  = [ "   Total Checks: 18";
      "   " ++ Colors.GREEN ++ "Passed: 14" ++ Colors.END;
      "   " ++ Colors.RED ++ "Failed: 2" ++ Colors.END;
      "   " ++ Colors.YELLOW ++ "Warnings: 2" ++ Colors.END ]%string.
Proof. vm_compute. reflexivity. Qed.
